(** * Square Sales Platform: bookkeeping identities of the client handlers

    A shallow embedding of the handlers that write to the hosted store:
    - [PaymentModal.handleSubmit] (recording a payment),
    - [DebtPage]: [addItemToBundle], [removeItemFromBundle], [createDebtor],
    - [SalesPage.handleSubmit] (recording a sale, stock deduction),
    - [StockManagement]: [handleSubmit] (new stock item), [handleRestock],
    - [exportToCsv].

    Conventions of the embedding.
    - A JavaScript number holding money is an exact rational ([Q]); integer
      results of [parseInt] are [Z].  Rounding of IEEE-754 doubles and the
      scale of the DECIMAL(10,2) columns are outside the model: a stored
      column is the exact value, which is what the column holds for amounts
      in whole cents.  A comparison the program makes on doubles before
      storing can differ from the exact one, so statements about the status
      a debtor is created with are about the numbers the form holds.
    - A form field that the handler reads through [parseInt]/[parseFloat] is
      given by its parse result, [None] standing for NaN; infinite values
      are not modelled.
    - Every call to the hosted store can fail; whether it does is an input of
      the handler (one reply per call, in the order of the calls).
    - Tables addressed by primary key (debtors, stock) are finite maps from id
      to row; tables that are only appended to (sales, debt_items, payments)
      are lists in insertion order.
    - A plain object is given by its own properties. Reading it under a key
      it does not own gives what [Object.prototype] holds under that key;
      what that is, is a parameter of the functions that read objects by
      key. *)

From Stdlib Require Import QArith Qabs Lqa Ascii String.
From stdpp Require Import gmap strings list fin_maps pretty.

Local Open Scope string_scope.
Local Open Scope list_scope.

(** ** Numbers and strings *)

(** JavaScript [a < b] and [a <= b] on numbers. *)
Definition Qleb (a b : Q) : bool := Qle_bool a b.
Definition Qltb (a b : Q) : bool := negb (Qle_bool b a).

(** The literal [0.01]. *)
Definition cent : Q := 1 # 100.

(** [xs.reduce((sum, x) => sum + f(x), 0)]. *)
Definition reduce_sum {A} (f : A -> Q) (xs : list A) : Q :=
  fold_left (fun sum x => (sum + f x)%Q) xs 0%Q.

(** Mathematical sum, used to state results. *)
Fixpoint Qsum (l : list Q) : Q :=
  match l with
  | [] => 0%Q
  | a :: l' => (a + Qsum l')%Q
  end.

(** [String.prototype.trim], for the ASCII white space characters. *)
Definition is_space (c : ascii) : bool :=
  match c with
  | " "%char | "009"%char | "010"%char | "011"%char | "012"%char | "013"%char => true
  | _ => false
  end.

Fixpoint trim_start (s : string) : string :=
  match s with
  | String c s' => if is_space c then trim_start s' else s
  | EmptyString => EmptyString
  end.

Fixpoint trim_end (s : string) : string :=
  match s with
  | String c s' =>
      match trim_end s' with
      | EmptyString => if is_space c then EmptyString else String c EmptyString
      | t => String c t
      end
  | EmptyString => EmptyString
  end.

Definition trim (s : string) : string := trim_end (trim_start s).

(** ** The hosted store *)

Module Db.

(** Primary keys (UUIDs in the schema). *)
Definition Id := nat.

Record StockRow := mkStock {
  stock_user_id : Id;
  stock_product_name : string;
  stock_quantity : Z;
  stock_cost_price : Q;
  stock_total_sold : Z
}.

Record SaleRow := mkSale {
  sale_user_id : Id;
  sale_date : string;
  sale_time : string;
  sale_product_name : string;
  sale_quantity : Z;
  sale_cost_price : Q;
  sale_selling_price : Q;
  sale_total_cost : Q;
  sale_revenue : Q;
  sale_profit_loss : Q
}.

Record DebtorRow := mkDebtor {
  debtor_user_id : Id;
  customer_name : string;
  customer_phone : string;
  customer_email : option string;
  grand_total : Q;
  total_paid : Q;
  current_balance : Q;
  status : string
}.

Record DebtItemRow := mkDebtItem {
  item_debtor_id : Id;
  item_date : string;
  item_name : string;
  item_quantity : Z;
  item_selling_price : Q;
  item_total : Q
}.

Record PaymentRow := mkPayment {
  payment_debtor_id : Id;
  payment_amount : Q
}.

Record Store := mkStore {
  stock : gmap Id StockRow;
  sales : list SaleRow;
  debtors : gmap Id DebtorRow;
  debt_items : list DebtItemRow;
  payments : list PaymentRow
}.

Definition empty : Store := mkStore ∅ [] ∅ [] [].

Definition set_stock (t : gmap Id StockRow) (st : Store) : Store :=
  mkStore t (sales st) (debtors st) (debt_items st) (payments st).
Definition set_sales (t : list SaleRow) (st : Store) : Store :=
  mkStore (stock st) t (debtors st) (debt_items st) (payments st).
Definition set_debtors (t : gmap Id DebtorRow) (st : Store) : Store :=
  mkStore (stock st) (sales st) t (debt_items st) (payments st).
Definition set_debt_items (t : list DebtItemRow) (st : Store) : Store :=
  mkStore (stock st) (sales st) (debtors st) t (payments st).
Definition set_payments (t : list PaymentRow) (st : Store) : Store :=
  mkStore (stock st) (sales st) (debtors st) (debt_items st) t.

(** The invariant of the stock table: no negative quantity. *)
Definition stock_nonneg (st : Store) : Prop :=
  map_Forall (fun _ r => (0 <= stock_quantity r)%Z) (stock st).

(** Reply of the store to an insert into a keyed table: an error, or the
    generated primary key ([gen_random_uuid()]). *)
Inductive InsertReply :=
| InsertError
| Inserted (id : Id).

(** [insert(row)] into a keyed table. A key that is already taken violates
    the primary key constraint and is an error. *)
Definition insert_row {A} (reply : InsertReply) (row : A) (t : gmap Id A)
  : option (Id * gmap Id A) :=
  match reply with
  | InsertError => None
  | Inserted id =>
      match t !! id with
      | Some _ => None
      | None => Some (id, <[id := row]> t)
      end
  end.

(** [update(f).eq(id)]: an update of the row with that primary key. *)
Definition update_row {A} (ok : bool) (f : A -> A) (id : Id) (t : gmap Id A)
  : option (gmap Id A) :=
  if ok then Some (alter f id t) else None.

(** [insert(rows)] into an append-only table. *)
Definition append_rows {A} (ok : bool) (rows : list A) (t : list A)
  : option (list A) :=
  if ok then Some (t ++ rows) else None.

(** [maybeSingle()]: the row when the query has exactly one; [null] data
    when it has none, more than one, or failed. *)
Definition maybeSingle {A} (ok : bool) (rows : list A) : option A :=
  if ok then
    match rows with
    | [r] => Some r
    | _ => None
    end
  else None.

End Db.

(** What a handler left on the screen. *)
Inductive Outcome :=
| Ignored                    (* silent early return *)
| Invalid (message : string) (* refused by a check of the handler *)
| Failed (title : string)    (* destructive toast after a store error *)
| Done (title : string).     (* success toast *)

Definition is_error (o : Outcome) : Prop :=
  match o with
  | Failed _ => True
  | _ => False
  end.

(** ** PaymentModal.tsx *)

Module PaymentModal.
Import Db.

(** The [debtor] prop of the modal. *)
Record DebtorProp := mkDebtorProp {
  id : Id;
  prop_customer_name : string;
  prop_current_balance : Q;
  prop_total_paid : Q
}.

(** [paymentSchema.safeParse({ amount })]: the first error message, or the
    accepted amount. [z.number()] refuses NaN. *)
Definition paymentSchema (amount : option Q) : string + Q :=
  match amount with
  | None => inl "Expected number, received nan"
  | Some a => if Qltb a cent then inl "Amount must be at least 0.01" else inr a
  end.

(** The update sent to the debtors table. *)
Definition update_balance (newTotalPaid newBalance : Q) (newStatus : string)
    (r : DebtorRow) : DebtorRow :=
  mkDebtor (debtor_user_id r) (customer_name r) (customer_phone r)
           (customer_email r) (grand_total r) newTotalPaid newBalance newStatus.

(** [handleSubmit]. [amount] is [parseFloat] of the amount field;
    [insert_ok] and [update_ok] say whether the payments insert and the
    debtors update succeed. *)
Definition handleSubmit (debtor : option DebtorProp) (amount : option Q)
    (insert_ok update_ok : bool) (st : Store) : Outcome * Store :=
  match debtor with
  | None => (Ignored, st)
  | Some debtor =>
      match paymentSchema amount with
      | inl message => (Invalid message, st)
      | inr paymentAmount =>
          if Qltb (prop_current_balance debtor) paymentAmount then
            (Invalid "Payment cannot exceed current balance", st)
          else
            match append_rows insert_ok
                    [mkPayment (id debtor) paymentAmount] (payments st) with
            | None => (Failed "Error recording payment", st)
            | Some payments' =>
                let st := set_payments payments' st in
                let newTotalPaid := (prop_total_paid debtor + paymentAmount)%Q in
                let newBalance := (prop_current_balance debtor - paymentAmount)%Q in
                let newStatus := if Qleb newBalance 0 then "paid" else "pending" in
                match update_row update_ok
                        (update_balance newTotalPaid newBalance newStatus)
                        (id debtor) (debtors st) with
                | None => (Failed "Error updating debtor", st)
                | Some debtors' =>
                    (Done "Payment recorded successfully!", set_debtors debtors' st)
                end
            end
      end
  end.

End PaymentModal.

(** ** DebtPage *)

Module DebtPage.
Import Db.

(** An item of the bundle being assembled in the form. *)
Record BundleItem := mkBundleItem {
  b_item_date : string;
  b_item_name : string;
  b_quantity : Z;
  b_selling_price : Q;
  b_total : Q
}.

(** [currentItem]: the item being typed; quantity and price by their
    [parseInt] and [parseFloat]. *)
Record CurrentItem := mkCurrentItem {
  c_item_date : string;
  c_item_name : string;
  c_quantity : option Z;
  c_selling_price : option Q
}.

(** [formData]; [f_payment_amount] is [parseFloat(formData.payment_amount)]. *)
Record FormData := mkFormData {
  f_customer_name : string;
  f_customer_phone : string;
  f_customer_email : string;
  f_items : list BundleItem;
  f_grand_total : Q;
  f_payment_amount : option Q
}.

Definition initialForm : FormData :=
  mkFormData EmptyString EmptyString EmptyString [] 0%Q None.

Definition within (lo hi : nat) (s : string) : bool :=
  (lo <=? String.length s)%nat && (String.length s <=? hi)%nat.

(** [customerSchema.safeParse(...).success]. *)
Definition customerSchema (name phone : string) : bool :=
  within 2 100 name && within 10 15 phone.

(** [itemSchema.safeParse(currentItem)]: quantity and price when valid. *)
Definition itemSchema (c : CurrentItem) : option (Z * Q) :=
  if within 1 100 (c_item_name c) then
    match c_quantity c, c_selling_price c with
    | Some q, Some p =>
        if (1 <=? q)%Z && Qleb cent p then Some (q, p) else None
    | _, _ => None
    end
  else None.

Definition set_bundle (items : list BundleItem) (grandTotal : Q)
    (fd : FormData) : FormData :=
  mkFormData (f_customer_name fd) (f_customer_phone fd) (f_customer_email fd)
             items grandTotal (f_payment_amount fd).

(** [addItemToBundle]: the form after the click (unchanged when the item
    does not validate). *)
Definition addItemToBundle (currentItem : CurrentItem) (formData : FormData)
  : FormData :=
  match itemSchema currentItem with
  | None => formData
  | Some (quantity, sellingPrice) =>
      let total := (inject_Z quantity * sellingPrice)%Q in
      let newItem :=
        mkBundleItem (c_item_date currentItem) (c_item_name currentItem)
                     quantity sellingPrice total in
      let updatedItems := f_items formData ++ [newItem] in
      let grandTotal := reduce_sum b_total updatedItems in
      set_bundle updatedItems grandTotal formData
  end.

(** [removeItemFromBundle(index)]. *)
Definition removeItemFromBundle (index : nat) (formData : FormData) : FormData :=
  let updatedItems := delete index (f_items formData) in
  let grandTotal := reduce_sum b_total updatedItems in
  set_bundle updatedItems grandTotal formData.

(** The fields [handleCustomerChange] is called with. *)
Inductive CustomerField :=
| CustomerName (value : string)
| CustomerPhone (value : string)
| CustomerEmail (value : string)
| PaymentAmount (parsed : option Q).

Definition handleCustomerChange (field : CustomerField) (fd : FormData) : FormData :=
  match field with
  | CustomerName v =>
      mkFormData v (f_customer_phone fd) (f_customer_email fd)
                 (f_items fd) (f_grand_total fd) (f_payment_amount fd)
  | CustomerPhone v =>
      mkFormData (f_customer_name fd) v (f_customer_email fd)
                 (f_items fd) (f_grand_total fd) (f_payment_amount fd)
  | CustomerEmail v =>
      mkFormData (f_customer_name fd) (f_customer_phone fd) v
                 (f_items fd) (f_grand_total fd) (f_payment_amount fd)
  | PaymentAmount v =>
      mkFormData (f_customer_name fd) (f_customer_phone fd) (f_customer_email fd)
                 (f_items fd) (f_grand_total fd) v
  end.

(** What the user can do to the form before creating the debtor. *)
Inductive FormEvent :=
| Change (field : CustomerField)
| AddItem (currentItem : CurrentItem)
| RemoveItem (index : nat).

Definition form_step (fd : FormData) (ev : FormEvent) : FormData :=
  match ev with
  | Change field => handleCustomerChange field fd
  | AddItem c => addItemToBundle c fd
  | RemoveItem i => removeItemFromBundle i fd
  end.

Definition fill (events : list FormEvent) : FormData :=
  fold_left form_step events initialForm.

(** [parseFloat(formData.payment_amount) || 0]. *)
Definition paymentAmount (fd : FormData) : Q :=
  match f_payment_amount fd with
  | Some a => a
  | None => 0%Q
  end.

Definition itemsToInsert (debtor_id : Id) (fd : FormData) : list DebtItemRow :=
  map (fun item =>
         mkDebtItem debtor_id (b_item_date item) (trim (b_item_name item))
                    (b_quantity item) (b_selling_price item) (b_total item))
      (f_items fd).

(** The first part of [createDebtor], up to the first call to the store:
    the message of the check that refuses the form, or the debtor row that
    is about to be inserted. *)
Definition newDebtor (userId : Id) (formData : FormData) : string + DebtorRow :=
  if negb (customerSchema (f_customer_name formData) (f_customer_phone formData)) then
    inl "customerSchema"
  else if (length (f_items formData) =? 0)%nat then
    inl "Please add at least one item"
  else
    let paymentAmount := paymentAmount formData in
    if Qltb paymentAmount 0 then
      inl "Payment amount cannot be negative"
    else if Qltb (f_grand_total formData) paymentAmount then
      inl "Payment cannot exceed grand total"
    else
      let currentBalance := (f_grand_total formData - paymentAmount)%Q in
      let status := if Qleb currentBalance 0 then "paid" else "pending" in
      let email := trim (f_customer_email formData) in
      inr (mkDebtor userId (trim (f_customer_name formData))
                    (trim (f_customer_phone formData))
                    (if String.eqb email EmptyString then None else Some email)
                    (f_grand_total formData) paymentAmount currentBalance status).

(** [createDebtor]. [debtor_reply], [items_ok] and [payment_ok] are the
    replies to the debtors insert, the debt_items insert and the payments
    insert. The result carries the form as the handler leaves it. *)
Definition createDebtor (userId : Id) (formData : FormData)
    (debtor_reply : InsertReply) (items_ok payment_ok : bool) (st : Store)
  : Outcome * FormData * Store :=
  match newDebtor userId formData with
  | inl message => (Invalid message, formData, st)
  | inr row =>
      match insert_row debtor_reply row (debtors st) with
      | None => (Failed "Error creating debtor", formData, st)
      | Some (debtor_id, debtors') =>
          let st := set_debtors debtors' st in
          match append_rows items_ok (itemsToInsert debtor_id formData)
                  (debt_items st) with
          | None => (Failed "Error adding items", formData, st)
          | Some debt_items' =>
              let st := set_debt_items debt_items' st in
              let st :=
                if Qltb 0 (paymentAmount formData) then
                  (* the reply to this insert is not inspected *)
                  match append_rows payment_ok
                          [mkPayment debtor_id (paymentAmount formData)]
                          (payments st) with
                  | Some payments' => set_payments payments' st
                  | None => st
                  end
                else st in
              (Done "Debtor created successfully!", initialForm, st)
          end
      end
  end.

(** [handlePayment(debtor)]: the prop handed to the payment modal, built
    from a row of the fetched list. *)
Definition handlePayment (debtor_id : Id) (debtor : DebtorRow)
  : PaymentModal.DebtorProp :=
  PaymentModal.mkDebtorProp debtor_id (customer_name debtor)
    (current_balance debtor) (total_paid debtor).

(** A run of payment attempts on one debtor. Before each attempt the page
    shows the debtor as stored ([fetchDebtors] after the previous write);
    [session id st amounts st'] lists the amounts of the attempts that ended
    with the success toast. *)
Inductive session (debtor_id : Id) : Store -> list Q -> Store -> Prop :=
| session_end st : session debtor_id st [] st
| session_paid st row a insert_ok update_ok title st1 amounts st2 :
    debtors st !! debtor_id = Some row ->
    PaymentModal.handleSubmit (Some (handlePayment debtor_id row)) (Some a)
      insert_ok update_ok st = (Done title, st1) ->
    session debtor_id st1 amounts st2 ->
    session debtor_id st (a :: amounts) st2
| session_refused st row amount insert_ok update_ok o st1 amounts st2 :
    debtors st !! debtor_id = Some row ->
    PaymentModal.handleSubmit (Some (handlePayment debtor_id row)) amount
      insert_ok update_ok st = (o, st1) ->
    (forall title, o <> Done title) ->
    session debtor_id st1 amounts st2 ->
    session debtor_id st amounts st2.

(** Every item of a form the user can reach carries quantity times price,
    and the form's grand total is the sum over the bundle. *)
Definition bundle_ok (fd : FormData) : Prop :=
  Forall (fun item =>
            (b_total item == inject_Z (b_quantity item) * b_selling_price item)%Q)
         (f_items fd) /\
  (f_grand_total fd == Qsum (map b_total (f_items fd)))%Q.

(** The status column agrees with the balance column. *)
Definition status_ok (row : DebtorRow) : Prop :=
  status row = if Qleb (current_balance row) 0 then "paid" else "pending".

End DebtPage.

(** ** SalesPage *)

Module SalesPage.
Import Db.

(** [formData]; quantity and prices by their [parseInt] and [parseFloat]. *)
Record FormData := mkFormData {
  f_sale_date : string;
  f_sale_time : string;
  f_product_name : string;
  f_quantity : option Z;
  f_cost_price : option Q;
  f_selling_price : option Q
}.

(** [saleSchema.safeParse(formData)]: quantity, cost price and selling
    price when the form is valid. *)
Definition saleSchema (fd : FormData) : option (Z * Q * Q) :=
  if (1 <=? String.length (f_sale_date fd))%nat
     && (1 <=? String.length (f_sale_time fd))%nat
     && (1 <=? String.length (f_product_name fd))%nat
     && (String.length (f_product_name fd) <=? 100)%nat
  then
    match f_quantity fd, f_cost_price fd, f_selling_price fd with
    | Some q, Some c, Some p =>
        if (1 <=? q)%Z && Qleb cent c && Qleb cent p then Some (q, c, p) else None
    | _, _, _ => None
    end
  else None.

Definition deduct (quantity : Z) (stockItem r : StockRow) : StockRow :=
  mkStock (stock_user_id r) (stock_product_name r)
          (stock_quantity stockItem - quantity) (stock_cost_price r)
          (stock_total_sold stockItem + quantity).

Section Backend.

(** The store's [ilike] filter: [ilike pattern value] says whether the
    column value matches the pattern, case-insensitively. *)
Variable ilike : string -> string -> bool.

(** The stock rows of the user whose product name passes the [ilike]
    filter, as the query of [handleSubmit] selects them. *)
Definition select_stock (userId : Id) (name : string) (st : Store)
  : list (Id * StockRow) :=
  map_to_list
    (filter (fun kr : Id * StockRow =>
               stock_user_id kr.2 = userId /\
               ilike name (stock_product_name kr.2) = true)
            (stock st)).

(** [handleSubmit]. [select_ok], [update_ok] and [insert_ok] are the
    replies to the stock query, the stock update and the sales insert. *)
Definition handleSubmit (userId : Id) (formData : FormData)
    (select_ok update_ok insert_ok : bool) (st : Store) : Outcome * Store :=
  match saleSchema formData with
  | None => (Invalid "saleSchema", st)
  | Some (quantity, costPrice, sellingPrice) =>
      let totalCost := (inject_Z quantity * costPrice)%Q in
      let revenue := (inject_Z quantity * sellingPrice)%Q in
      let profitLoss := (revenue - totalCost)%Q in
      let product_name := trim (f_product_name formData) in
      let sale :=
        mkSale userId (f_sale_date formData) (f_sale_time formData)
               product_name quantity costPrice sellingPrice
               totalCost revenue profitLoss in
      let insert_sale (stockMessage : string) (st : Store) :=
        match append_rows insert_ok [sale] (sales st) with
        | None => (Failed "Error adding sale", st)
        | Some sales' =>
            (Done (String.append "Sale recorded successfully!" stockMessage),
             set_sales sales' st)
        end in
      match maybeSingle select_ok (select_stock userId product_name st) with
      | Some (stock_id, stockItem) =>
          if (stock_quantity stockItem <? quantity)%Z then
            (Invalid "Insufficient stock", st)
          else
            match update_row update_ok (deduct quantity stockItem)
                    stock_id (stock st) with
            | None => (Failed "Error updating stock", st)
            | Some stock' => insert_sale " Stock updated." (set_stock stock' st)
            end
      | None => insert_sale EmptyString st
      end
  end.

End Backend.

End SalesPage.

(** ** StockManagement *)

Module StockManagement.
Import Db.

Record FormData := mkFormData {
  f_product_name : string;
  f_quantity : option Z;
  f_cost_price : option Q
}.

(** [stockSchema.safeParse(formData)]: quantity and cost price when valid. *)
Definition stockSchema (fd : FormData) : option (Z * Q) :=
  if (1 <=? String.length (f_product_name fd))%nat
     && (String.length (f_product_name fd) <=? 100)%nat
  then
    match f_quantity fd, f_cost_price fd with
    | Some q, Some c => if (1 <=? q)%Z && Qleb cent c then Some (q, c) else None
    | _, _ => None
    end
  else None.

(** [handleSubmit]: a new stock row; [total_sold] takes the column default. *)
Definition handleSubmit (userId : Id) (formData : FormData)
    (reply : InsertReply) (st : Store) : Outcome * Store :=
  match stockSchema formData with
  | None => (Invalid "stockSchema", st)
  | Some (quantity, costPrice) =>
      match insert_row reply
              (mkStock userId (trim (f_product_name formData)) quantity costPrice 0)
              (stock st) with
      | None => (Failed "Error adding stock", st)
      | Some (_, stock') => (Done "Stock added successfully!", set_stock stock' st)
      end
  end.

(** The text of the restock field: empty, or typed with its [parseInt]. *)
Inductive QuantityField :=
| Blank
| Typed (parsed : option Z).

Definition set_quantity (newQuantity : Z) (r : StockRow) : StockRow :=
  mkStock (stock_user_id r) (stock_product_name r) newQuantity
          (stock_cost_price r) (stock_total_sold r).

(** [handleRestock]. [restockItem] is the row of the fetched list the
    dialog was opened on, with its id. *)
Definition handleRestock (restockItem : option (Id * StockRow))
    (restockQuantity : QuantityField) (update_ok : bool) (st : Store)
  : Outcome * Store :=
  match restockItem, restockQuantity with
  | None, _ | _, Blank => (Ignored, st)
  | Some (item_id, item), Typed parsed =>
      match parsed with
      | None => (Invalid "Please enter a valid quantity", st)
      | Some addQuantity =>
          if (addQuantity <? 1)%Z then
            (Invalid "Please enter a valid quantity", st)
          else
            let newQuantity := (stock_quantity item + addQuantity)%Z in
            match update_row update_ok (set_quantity newQuantity)
                    item_id (stock st) with
            | None => (Failed "Error restocking", st)
            | Some stock' =>
                (Done (String.append "Added "
                         (String.append (pretty addQuantity)
                            (String.append " units to " (stock_product_name item)))),
                 set_stock stock' st)
            end
      end
  end.

End StockManagement.

(** ** exportToCsv *)

Module ExportCsv.

Definition comma : ascii := ","%char.
Definition newline : ascii := "010"%char.
Definition dquote : ascii := "034"%char.

(** A field value: [null], [undefined], or any other value, given by its
    [String(value)]. *)
Inductive Value :=
| Null
| Undefined
| Other (stringValue : string).

(** A record: its own properties in [Object.keys] order. *)
Definition Row := list (string * Value).

Definition keys_of (row : Row) : list string := map fst row.

Section Prototype.

(** What every record inherits: the value the prototype chain gives for a
    key, [undefined] for every key but the names of the members of
    [Object.prototype] (constructor, toString and the like). *)
Variable inherited : string -> Value.

(** [row[key]]: the record's own property, or else what it inherits. *)
Fixpoint get (key : string) (row : Row) : Value :=
  match row with
  | [] => inherited key
  | (k, v) :: row' => if String.eqb k key then v else get key row'
  end.

(** [s.includes(c)] for a one-character [c]. *)
Fixpoint includes (c : ascii) (s : string) : bool :=
  match s with
  | EmptyString => false
  | String c' s' => Ascii.eqb c' c || includes c s'
  end.

(** [s.replace] of every double quote by two of them. *)
Fixpoint replace_quotes (s : string) : string :=
  match s with
  | EmptyString => EmptyString
  | String c s' =>
      if Ascii.eqb c dquote then String dquote (String dquote (replace_quotes s'))
      else String c (replace_quotes s')
  end.

Definition needs_quotes (s : string) : bool :=
  includes comma s || includes dquote s || includes newline s.

(** The callback of [keys.map]. *)
Definition field (value : Value) : string :=
  match value with
  | Null | Undefined => EmptyString
  | Other stringValue =>
      if needs_quotes stringValue then
        String dquote (String.append (replace_quotes stringValue)
                                     (String dquote EmptyString))
      else stringValue
  end.

(** [xs.join(sep)] for a one-character [sep]. *)
Fixpoint join (sep : ascii) (xs : list string) : string :=
  match xs with
  | [] => EmptyString
  | [x] => x
  | x :: xs' => String.append x (String sep (join sep xs'))
  end.

(** [headers || Object.keys(rows[0])]. *)
Definition columns (row0 : Row) (headers : option (list string)) : list string :=
  match headers with
  | Some h => h
  | None => keys_of row0
  end.

Definition line (keys : list string) (row : Row) : string :=
  join comma (map (fun key => field (get key row)) keys).

(** [exportToCsv]: the name and the content of the downloaded file, or
    nothing when there are no rows. *)
Definition exportToCsv (filename : string) (rows : list Row)
    (headers : option (list string)) : option (string * string) :=
  match rows with
  | [] => None
  | row0 :: _ =>
      let keys := columns row0 headers in
      let csvContent := join newline (join comma keys :: map (line keys) rows) in
      Some (String.append filename ".csv", csvContent)
  end.

End Prototype.

(** *** Reading the file back *)

(** Where the reader is inside a record. *)
Inductive Mode :=
| FieldStart
| Unquoted
| Quoted
| QuoteSeen.

Definition push (c : ascii) (records : list (list string)) : list (list string) :=
  match records with
  | (f :: fs) :: rs => (String c f :: fs) :: rs
  | [] :: rs => [String c EmptyString] :: rs
  | [] => [[String c EmptyString]]
  end.

Definition new_field (records : list (list string)) : list (list string) :=
  match records with
  | fs :: rs => (EmptyString :: fs) :: rs
  | [] => [[EmptyString]]
  end.

Definition new_record (records : list (list string)) : list (list string) :=
  [EmptyString] :: records.

Fixpoint scan (mode : Mode) (s : string) : list (list string) :=
  match s with
  | EmptyString => [[EmptyString]]
  | String c s' =>
      match mode with
      | Quoted =>
          if Ascii.eqb c dquote then scan QuoteSeen s'
          else push c (scan Quoted s')
      | QuoteSeen =>
          if Ascii.eqb c dquote then push c (scan Quoted s')
          else if Ascii.eqb c comma then new_field (scan FieldStart s')
          else if Ascii.eqb c newline then new_record (scan FieldStart s')
          else push c (scan Unquoted s')
      | FieldStart =>
          if Ascii.eqb c dquote then scan Quoted s'
          else if Ascii.eqb c comma then new_field (scan FieldStart s')
          else if Ascii.eqb c newline then new_record (scan FieldStart s')
          else push c (scan Unquoted s')
      | Unquoted =>
          if Ascii.eqb c comma then new_field (scan FieldStart s')
          else if Ascii.eqb c newline then new_record (scan FieldStart s')
          else push c (scan Unquoted s')
      end
  end.

(** Modelled from the spec: the repository has no CSV reader; this is the
    reader the round-trip property speaks of, for the quoting rule of
    [field]: records end at a line feed outside quotes, fields at a comma
    outside quotes, a field that starts with a double quote runs to the
    closing double quote, and a doubled double quote inside it stands for
    one. The first record is the header line. *)
Definition parseCsv (content : string) : list (list string) :=
  scan FieldStart content.

(** [String(value)]. *)
Definition String_ (value : Value) : string :=
  match value with
  | Null => "null"
  | Undefined => "undefined"
  | Other stringValue => stringValue
  end.

(** What [field] writes for a value, before quoting. *)
Definition written (value : Value) : string :=
  match value with
  | Null | Undefined => EmptyString
  | Other stringValue => stringValue
  end.

(** A column name that the header line carries unchanged. *)
Definition plain (key : string) : Prop := needs_quotes key = false.

(** The characters of [v] pushed in front of the field being read. *)
Fixpoint prepend (v : string) (records : list (list string)) : list (list string) :=
  match v with
  | EmptyString => records
  | String c v' => push c (prepend v' records)
  end.

(** The records that follow the end of a line. *)
Definition following (rest : string) : list (list string) :=
  match rest with
  | EmptyString => []
  | String _ rest' => scan FieldStart rest'
  end.

(** The text after a field: the end of the file, a comma or a line feed. *)
Inductive boundary : string -> Prop :=
| boundary_end : boundary EmptyString
| boundary_comma rest : boundary (String comma rest)
| boundary_newline rest : boundary (String newline rest).

(** The text after a line: the end of the file or a line feed. *)
Inductive line_end : string -> Prop :=
| line_end_file : line_end EmptyString
| line_end_newline rest : line_end (String newline rest).

(** [null] and [undefined] fields replaced by empty strings. *)
Definition blank_nulls (row : Row) : Row :=
  map (fun kv => (kv.1, Other (written kv.2))) row.

End ExportCsv.

(** ** Sample data *)

Module Examples.
Import Db.

(** One item, 4 units at 250: a grand total of 1000. *)
Definition rice : DebtPage.CurrentItem :=
  DebtPage.mkCurrentItem "2025-12-01" "rice" (Some 4%Z) (Some (250 # 1)).

Definition form : DebtPage.FormData :=
  DebtPage.fill
    [DebtPage.Change (DebtPage.CustomerName "Ada Obi");
     DebtPage.Change (DebtPage.CustomerPhone "08012345678");
     DebtPage.AddItem rice].

(** The same form with an initial payment of 400. *)
Definition form_paying : DebtPage.FormData :=
  DebtPage.handleCustomerChange (DebtPage.PaymentAmount (Some (400 # 1))) form.

Definition created : Store :=
  (DebtPage.createDebtor 1 form (Inserted 7) true true Db.empty).2.

Definition pay (debtor_id : Id) (a : Q) (st : Store) : Outcome * Store :=
  match debtors st !! debtor_id with
  | Some row =>
      PaymentModal.handleSubmit (Some (DebtPage.handlePayment debtor_id row))
        (Some a) true true st
  | None => (Ignored, st)
  end.

Definition paid_400 : Store := (pay 7 (400 # 1) created).2.
Definition paid_1000 : Store := (pay 7 (600 # 1) paid_400).2.

(** Case-insensitive equality of ASCII strings, an instance of the
    [ilike] filter for patterns without wildcards. *)
Definition lower (c : ascii) : ascii :=
  let n := nat_of_ascii c in
  if (65 <=? n)%nat && (n <=? 90)%nat then ascii_of_nat (n + 32) else c.

Fixpoint same_letters (a b : string) : bool :=
  match a, b with
  | EmptyString, EmptyString => true
  | String x a', String y b' => Ascii.eqb (lower x) (lower y) && same_letters a' b'
  | _, _ => false
  end.

(** A shop of user 1 with five units of rice in stock. *)
Definition shop : Store :=
  set_stock (<[3%nat := mkStock 1 "Rice" 5 (10 # 1) 2]> ∅) Db.empty.

(** The same shop after rice was added a second time as a new item. *)
Definition shop_twice : Store :=
  set_stock (<[4%nat := mkStock 1 "rice" 8 (10 # 1) 0]> (stock shop)) shop.

(** A text with double quotes, and a text of two lines. *)
Definition note : string :=
  String.append "said "
    (String ExportCsv.dquote (String.append "later" (String ExportCsv.dquote EmptyString))).
Definition address : string :=
  String.append "12 Market Road" (String ExportCsv.newline "Enugu").

(** A column name that starts with a double quote. *)
Definition quoted_key : string := String ExportCsv.dquote "Name".

Definition sale_of (product : string) (quantity : Z) : SalesPage.FormData :=
  SalesPage.mkFormData "2025-12-01" "09:30" product (Some quantity)
                       (Some (10 # 1)) (Some (15 # 1)).

End Examples.

(** ** Predicates on forms and rows *)

Module Shapes.
Import Db.

(** A text of white space only. *)
Fixpoint all_space (s : string) : bool :=
  match s with
  | EmptyString => true
  | String c s' => is_space c && all_space s'
  end.

(** What [itemSchema] lets into the bundle: at least one unit, at a price
    of at least 0.01. *)
Definition item_valid (item : DebtPage.BundleItem) : Prop :=
  (1 <= DebtPage.b_quantity item)%Z /\ (cent <= DebtPage.b_selling_price item)%Q.

(** What [saleSchema] and [handleSubmit] put into a sale row. *)
Definition sale_ok (sale : SaleRow) : Prop :=
  (1 <= sale_quantity sale)%Z /\
  (cent <= sale_cost_price sale)%Q /\
  (cent <= sale_selling_price sale)%Q /\
  (sale_total_cost sale == inject_Z (sale_quantity sale) * sale_cost_price sale)%Q /\
  (sale_revenue sale == inject_Z (sale_quantity sale) * sale_selling_price sale)%Q /\
  (sale_profit_loss sale == sale_revenue sale - sale_total_cost sale)%Q.

End Shapes.

(** ** Values the pages derive from the fetched rows *)

Module Views.
Import Db.

(** [SalesPage.calculateSummary], over the fetched sales. *)
Record Summary := mkSummary {
  totalProducts : nat;
  totalQuantity : Z;
  totalCost : Q;
  totalRevenue : Q;
  totalProfit : Q;
  totalLoss : Q;
  netResult : Q
}.

Definition calculateSummary (sales : list SaleRow) : Summary :=
  let totalQuantity :=
    fold_left (fun sum sale => (sum + sale_quantity sale)%Z) sales 0%Z in
  let totalCost := reduce_sum sale_total_cost sales in
  let totalRevenue := reduce_sum sale_revenue sales in
  let totalProfit :=
    reduce_sum sale_profit_loss
      (List.filter (fun s => Qltb 0 (sale_profit_loss s)) sales) in
  let totalLoss :=
    reduce_sum (fun s => Qabs (sale_profit_loss s))
      (List.filter (fun s => Qltb (sale_profit_loss s) 0) sales) in
  let netResult := (totalRevenue - totalCost)%Q in
  mkSummary (length (remove_dups (map sale_product_name sales)))
            totalQuantity totalCost totalRevenue totalProfit totalLoss netResult.

(** [StockManagement]: the lists behind the stock alerts, over the fetched
    stock rows. *)
Definition lowStockItems (lowStockThreshold : Z) (stock : list (Id * StockRow))
  : list (Id * StockRow) :=
  List.filter (fun item => (stock_quantity item.2 <=? lowStockThreshold)%Z
                           && (0 <? stock_quantity item.2)%Z) stock.

Definition outOfStockItems (stock : list (Id * StockRow)) : list (Id * StockRow) :=
  List.filter (fun item => (stock_quantity item.2 =? 0)%Z) stock.

Definition totalStockValue (stock : list (Id * StockRow)) : Q :=
  reduce_sum (fun item => (inject_Z (stock_quantity item.2) * stock_cost_price item.2)%Q)
             stock.

(** The condition under which the alert card is rendered. *)
Definition alerts_shown (lowStockThreshold : Z) (stock : list (Id * StockRow)) : bool :=
  (0 <? length (lowStockItems lowStockThreshold stock))%nat
  || (0 <? length (outOfStockItems stock))%nat.

(** The threshold stored when the settings field changes:
    [Math.max(1, parseInt(value) || 10)]. *)
Definition setLowStockThreshold (parsed : option Z) : Z :=
  Z.max 1 (match parsed with
           | None => 10
           | Some n => if (n =? 0)%Z then 10 else n
           end).

(** [DebtPage.calculateStats], over the fetched debtors; each comes with the
    month of its last update, and [thisMonth] is the current month. *)
Record Stats := mkStats {
  totalOutstanding : Q;
  activeDebtors : nat;
  paidThisMonth : Q
}.

Definition calculateStats (thisMonth : nat) (debtors : list (DebtorRow * nat)) : Stats :=
  mkStats
    (reduce_sum (fun d => current_balance d.1) debtors)
    (length (List.filter (fun d => String.eqb (status d.1) "pending") debtors))
    (reduce_sum (fun d => total_paid d.1)
       (List.filter (fun d => (d.2 =? thisMonth)%nat) debtors)).

End Views.

(** ** Deleting rows *)

Module Deletes.
Import Db.

(** [StockManagement.handleDelete]; [confirmed] is the answer to the
    confirmation dialog. *)
Definition handleDelete (confirmed : bool) (id : Id) (delete_ok : bool) (st : Store)
  : Outcome * Store :=
  if confirmed then
    if delete_ok then
      (Done "Stock deleted successfully", set_stock (delete id (stock st)) st)
    else (Failed "Error deleting stock", st)
  else (Ignored, st).

(** [DebtPage.deleteDebtor]. The debt_items and payments tables reference
    the debtor ON DELETE CASCADE, so their rows go with it. *)
Definition deleteDebtor (confirmed : bool) (id : Id) (delete_ok : bool) (st : Store)
  : Outcome * Store :=
  if confirmed then
    if delete_ok then
      (Done "Debtor deleted successfully",
       mkStore (stock st) (sales st) (delete id (debtors st))
               (List.filter (fun r => negb (item_debtor_id r =? id)%nat) (debt_items st))
               (List.filter (fun r => negb (payment_debtor_id r =? id)%nat) (payments st)))
    else (Failed "Error deleting debtor", st)
  else (Ignored, st).

(** No debt item and no payment refers to [id]. *)
Definition unreferenced (id : Id) (st : Store) : Prop :=
  Forall (fun r => item_debtor_id r <> id) (debt_items st) /\
  Forall (fun r => payment_debtor_id r <> id) (payments st).

End Deletes.

(** ** Exporting the sales *)

Module Exports.
Import Db.

Section Numbers.

(** [String(value)] of a number. *)
Variable String_number : Q -> string.

(** What every record inherits (see [ExportCsv.get]). *)
Variable inherited : string -> ExportCsv.Value.

(** The record [exportSales] builds for a sale. *)
Definition exportRecord (sale : SaleRow) : ExportCsv.Row :=
  [("Date", ExportCsv.Other (sale_date sale));
   ("Time", ExportCsv.Other (sale_time sale));
   ("Product", ExportCsv.Other (sale_product_name sale));
   ("Quantity", ExportCsv.Other (String_number (inject_Z (sale_quantity sale))));
   ("Cost Price", ExportCsv.Other (String_number (sale_cost_price sale)));
   ("Selling Price", ExportCsv.Other (String_number (sale_selling_price sale)));
   ("Total Cost", ExportCsv.Other (String_number (sale_total_cost sale)));
   ("Revenue", ExportCsv.Other (String_number (sale_revenue sale)));
   ("Profit/Loss", ExportCsv.Other (String_number (sale_profit_loss sale)))].

(** [SalesPage.exportSales], over the fetched sales and the date range of
    the page: the toast and the downloaded file. *)
Definition exportSales (sales : list SaleRow) (startDate endDate : string)
  : Outcome * option (string * string) :=
  match sales with
  | [] => (Invalid "No sales to export", None)
  | _ =>
      (Done "Sales exported successfully!",
       ExportCsv.exportToCsv inherited
         (String.append "sales_"
            (String.append startDate (String.append "_to_" endDate)))
         (map exportRecord sales) None)
  end.

(** The line of the file a sale is expected to come back as. *)
Definition exportedFields (sale : SaleRow) : list string :=
  [sale_date sale; sale_time sale; sale_product_name sale;
   String_number (inject_Z (sale_quantity sale));
   String_number (sale_cost_price sale);
   String_number (sale_selling_price sale);
   String_number (sale_total_cost sale);
   String_number (sale_revenue sale);
   String_number (sale_profit_loss sale)].

End Numbers.

Definition salesHeader : list string :=
  ["Date"; "Time"; "Product"; "Quantity"; "Cost Price"; "Selling Price";
   "Total Cost"; "Revenue"; "Profit/Loss"].

End Exports.

(** ** The weekly reminder job *)

Module WeeklyReminders.
Import Db.

(** What the mail service answers to one request: accepted; refused with a
    JSON body that has a message; refused with the JSON body null, on which
    reading the message raises the error given; or the request, or the
    reading of the body, raised an exception. *)
Inductive SendReply :=
| Accepted
| Refused (message : string)
| RefusedNull (typeError : string)
| Raised (message : string).

Record Results := mkResults {
  total : nat;
  sent : nat;
  failed : nat;
  errors : list string
}.

(** The response of the handler: the answer to a preflight request, or a
    JSON body with its status, its success flag and the results or the error
    message. *)
Inductive Response :=
| Preflight
| Json (status : nat) (success : bool) (payload : Results + string).

(** The debtors the job selects: pending, with a positive balance and an
    email address. *)
Definition selected (st : Store) : list (Id * DebtorRow) :=
  map_to_list
    (filter (fun kr : Id * DebtorRow =>
               status kr.2 = "pending" /\
               Qltb 0 (current_balance kr.2) = true /\
               customer_email kr.2 <> None)
            (debtors st)).

(** A debtor the loop does not skip: it has a non-empty address. *)
Definition has_address (debtor : Id * DebtorRow) : bool :=
  match customer_email debtor.2 with
  | Some email => negb (String.eqb email EmptyString)
  | None => false
  end.

Definition null_body (reply : SendReply) : bool :=
  match reply with
  | RefusedNull _ => true
  | _ => false
  end.

(** One turn of the loop: the results so far and the addresses written to
    so far. A refusal with a null body is counted as failed in the else
    branch and once more in the catch, which writes the one error line. *)
Definition remind (send : Id -> SendReply) (acc : Results * list string)
    (debtor : Id * DebtorRow) : Results * list string :=
  let (results, mailed) := acc in
  match customer_email debtor.2 with
  | None => acc
  | Some email =>
      if String.eqb email EmptyString then acc
      else
        match send debtor.1 with
        | Accepted =>
            (mkResults (total results) (S (sent results)) (failed results)
                       (errors results),
             mailed ++ [email])
        | Refused message | Raised message =>
            (mkResults (total results) (sent results) (S (failed results))
                       (errors results
                          ++ [String.append email (String.append ": " message)]),
             mailed ++ [email])
        | RefusedNull typeError =>
            (mkResults (total results) (sent results) (S (S (failed results)))
                       (errors results
                          ++ [String.append email (String.append ": " typeError)]),
             mailed ++ [email])
        end
  end.

(** [handler]. [RESEND_API_KEY] is the environment variable, [fetchError]
    the error of the debtors query if it failed, [send] the answer of the
    mail service for each debtor. The result is the response and the
    addresses a mail request was made for. *)
Definition handler (method : string) (RESEND_API_KEY : option string)
    (fetchError : option string) (send : Id -> SendReply) (st : Store)
  : Response * list string :=
  if String.eqb method "OPTIONS" then (Preflight, [])
  else
    match RESEND_API_KEY with
    | None => (Json 500 false (inr "RESEND_API_KEY is not configured"), [])
    | Some key =>
        if String.eqb key EmptyString then
          (Json 500 false (inr "RESEND_API_KEY is not configured"), [])
        else
          match fetchError with
          | Some message => (Json 500 false (inr message), [])
          | None =>
              let debtors := selected st in
              let (results, mailed) :=
                fold_left (remind send) debtors
                          (mkResults (length debtors) 0 0 [], []) in
              (Json 200 true (inl results), mailed)
          end
    end.

End WeeklyReminders.

(** ** The change indicators of the analytics dashboard *)

Module Analytics.

(** [getChangePercent]. *)
Definition getChangePercent (current previous : Q) : Q :=
  if Qeq_bool previous 0 then (if Qltb 0 current then 100 else 0)%Q
  else ((current - previous) / previous * 100)%Q.

(** [getChangeClass]. *)
Definition getChangeClass (current previous : Q) : string :=
  let change := (current - previous)%Q in
  if Qltb 0 change then "trend-up"
  else if Qltb change 0 then "trend-down"
  else EmptyString.

(** The three cases of [getChangeText] and of [ComparisonIndicator], which
    look at the sign of the percentage. *)
Inductive Trend := Up | Down | NoChange.

Definition trend (current previous : Q) : Trend :=
  let percent := getChangePercent current previous in
  if Qltb 0 percent then Up
  else if Qltb percent 0 then Down
  else NoChange.

End Analytics.

(** ** ExpenseTracking: the amounts per category *)

Module Expenses.

Record ExpenseRow := mkExpense {
  expense_date : string;
  category : string;
  description : string;
  amount : Q
}.

(** An entry of the object [expensesByCategory] builds: a number, or the
    text that [+] makes once a member of [Object.prototype] was read under
    that key. *)
Inductive Entry :=
| Amount (total : Q)
| Text.

Section Prototype.

(** Whether a key names a member of [Object.prototype]. *)
Variable inherited : string -> bool.

(** One turn of the reduce,
    [acc[e.category] = (acc[e.category] || 0) + parseFloat(e.amount)].
    The finite map holds the own properties of [acc]. Reading a key that
    [acc] does not own finds an inherited member, if there is one; the
    assignment of a text or a number to __proto__ is ignored. *)
Definition add_expense (acc : gmap string Entry) (e : ExpenseRow) : gmap string Entry :=
  let key := category e in
  if String.eqb key "__proto__" then acc
  else
    match acc !! key with
    | Some (Amount v) => <[key := Amount (v + amount e)]> acc
    | Some Text => <[key := Text]> acc
    | None =>
        if inherited key then <[key := Text]> acc
        else <[key := Amount (0 + amount e)]> acc
    end.

(** [expensesByCategory], over the fetched expenses. *)
Definition expensesByCategory (expenses : list ExpenseRow) : gmap string Entry :=
  fold_left add_expense expenses ∅.

End Prototype.

(** The number under a key, 0 when the object has none. *)
Definition number_at (acc : gmap string Entry) (key : string) : Q :=
  match acc !! key with
  | Some (Amount v) => v
  | _ => 0%Q
  end.

(** The amounts of the expenses of one category, in order. *)
Definition amounts_of (key : string) (expenses : list ExpenseRow) : list Q :=
  map amount (List.filter (fun e => String.eqb (category e) key) expenses).

End Expenses.

(** ** More sample data *)

Module Samples.
Import Db.

(** What records inherit in the samples: two members of [Object.prototype],
    by their text. *)
Definition object_prototype (key : string) : ExportCsv.Value :=
  if String.eqb key "constructor" then
    ExportCsv.Other "function Object() { [native code] }"
  else if String.eqb key "toString" then
    ExportCsv.Other "function toString() { [native code] }"
  else ExportCsv.Undefined.

Definition is_inherited (key : string) : bool :=
  String.eqb key "constructor" || String.eqb key "toString"
  || String.eqb key "__proto__".



(** The same form, paid in full at creation. *)
Definition form_paid_in_full : DebtPage.FormData :=
  DebtPage.handleCustomerChange (DebtPage.PaymentAmount (Some (1000 # 1)))
    Examples.form.

(** Two pending debtors with an email address. *)
Definition with_email (email : string) (fd : DebtPage.FormData) : DebtPage.FormData :=
  DebtPage.handleCustomerChange (DebtPage.CustomerEmail email) fd.

Definition two_debtors : Store :=
  (DebtPage.createDebtor 1 (with_email "eze@example.com" Examples.form)
     (Inserted 8) true true
     (DebtPage.createDebtor 1 (with_email "ada@example.com" Examples.form_paying)
        (Inserted 7) true true Db.empty).2).2.

(** A mail service that refuses every mail, the first with a null body. *)
Definition refusing (debtor_id : Id) : WeeklyReminders.SendReply :=
  if (debtor_id =? 7)%nat then
    WeeklyReminders.RefusedNull "Cannot read properties of null"
  else WeeklyReminders.Refused "quota exceeded".

End Samples.

(** * Properties *)

(** ** Arithmetic of JavaScript numbers *)

Lemma Qleb_true a b : Qleb a b = true <-> (a <= b)%Q.
Proof. apply Qle_bool_iff. Qed.

Lemma Qleb_false a b : Qleb a b = false <-> (b < a)%Q.
Proof.
  unfold Qleb. rewrite <- not_true_iff_false, Qle_bool_iff.
  split; [apply Qnot_le_lt | apply Qlt_not_le].
Qed.

Lemma Qltb_true a b : Qltb a b = true <-> (a < b)%Q.
Proof. unfold Qltb. rewrite negb_true_iff. apply Qleb_false. Qed.

Lemma Qltb_false a b : Qltb a b = false <-> (b <= a)%Q.
Proof. unfold Qltb. rewrite negb_false_iff. apply Qleb_true. Qed.

Lemma fold_left_Qplus {A} (f : A -> Q) xs acc :
  (fold_left (fun sum x => sum + f x) xs acc == acc + Qsum (map f xs))%Q.
Proof.
  revert acc. induction xs as [|x xs IH]; intros acc; simpl.
  - lra.
  - rewrite IH. lra.
Qed.

Lemma reduce_sum_Qsum {A} (f : A -> Q) xs :
  (reduce_sum f xs == Qsum (map f xs))%Q.
Proof. unfold reduce_sum. rewrite fold_left_Qplus. lra. Qed.



(** ** Recording payments *)

Section Payments.
Import Db PaymentModal DebtPage.

Lemma paymentSchema_accepts amount a :
  paymentSchema amount = inr a -> amount = Some a /\ (cent <= a)%Q.
Proof.
  unfold paymentSchema. destruct amount as [x|]; [|discriminate].
  destruct (Qltb x cent) eqn:E; [discriminate|].
  intros [= ->]. split; [reflexivity | by apply Qltb_false].
Qed.







End Payments.

(** ** Creating a debtor *)

Section CreateDebtor.
Import Db PaymentModal DebtPage.

(** The row that [createDebtor] inserts. *)
Lemma newDebtor_row userId fd row :
  newDebtor userId fd = inr row ->
  grand_total row = f_grand_total fd /\
  total_paid row = paymentAmount fd /\
  current_balance row = (f_grand_total fd - paymentAmount fd)%Q /\
  status_ok row.
Proof.
  unfold newDebtor.
  destruct (negb _); [discriminate|].
  destruct (_ =? _)%nat; [discriminate|].
  destruct (Qltb (paymentAmount fd) 0); [discriminate|].
  destruct (Qltb (f_grand_total fd) (paymentAmount fd)); [discriminate|].
  intros [= <-]. unfold status_ok. simpl. auto.
Qed.

(** What a successful [createDebtor] wrote. *)
Lemma createDebtor_done userId fd debtor_id items_ok payment_ok st title fd' st' :
  createDebtor userId fd (Inserted debtor_id) items_ok payment_ok st
    = (Done title, fd', st') ->
  exists row,
    newDebtor userId fd = inr row /\
    debtors st !! debtor_id = None /\
    debtors st' = <[debtor_id := row]> (debtors st) /\
    debt_items st' = debt_items st ++ itemsToInsert debtor_id fd.
Proof.
  unfold createDebtor.
  destruct (newDebtor userId fd) as [m|row]; [discriminate|].
  simpl. destruct (debtors st !! debtor_id) eqn:Hfree; [discriminate|].
  destruct items_ok; simpl; [|discriminate].
  intros [= _ _ <-]. exists row.
  destruct (Qltb 0 (paymentAmount fd)); [destruct payment_ok|]; simpl; auto.
Qed.

Lemma itemSchema_accepts c q p :
  itemSchema c = Some (q, p) -> c_quantity c = Some q /\ c_selling_price c = Some p.
Proof.
  unfold itemSchema. destruct (within 1 100 _); [|discriminate].
  destruct (c_quantity c) as [q'|]; [|discriminate].
  destruct (c_selling_price c) as [p'|]; [|discriminate].
  destruct (_ && _); [|discriminate]. by intros [= -> ->].
Qed.

Lemma form_step_bundle_ok fd ev : bundle_ok fd -> bundle_ok (form_step fd ev).
Proof.
  intros [Hitems Htotal]. destruct ev as [field | c | i]; simpl.
  - destruct field; split; assumption.
  - unfold addItemToBundle. destruct (itemSchema c) as [[q p]|]; [|by split].
    split; simpl.
    + apply Forall_app. split; [assumption|].
      constructor; [simpl; reflexivity | constructor].
    + apply reduce_sum_Qsum.
  - unfold removeItemFromBundle. split; simpl.
    + by apply Forall_delete.
    + apply reduce_sum_Qsum.
Qed.

Lemma fill_bundle_ok events : bundle_ok (fill events).
Proof.
  unfold fill.
  assert (H : bundle_ok initialForm) by (split; [constructor | reflexivity]).
  revert H. generalize initialForm.
  induction events as [|ev events IH]; intros fd H; simpl; [assumption|].
  apply IH. by apply form_step_bundle_ok.
Qed.

Lemma itemsToInsert_totals debtor_id fd :
  map item_total (itemsToInsert debtor_id fd) = map b_total (f_items fd).
Proof. unfold itemsToInsert. rewrite map_map. reflexivity. Qed.

End CreateDebtor.

(** ** The claims about debtors and payments *)

Section DebtClaims.
Import Db PaymentModal DebtPage.




(** C8. An amount below 0.01 or above the debtor's current balance is
    refused with a validation message and the store is returned as it was:
    no payment is inserted and no debtor is updated. *)
Theorem payment_out_of_range_writes_nothing debtor a insert_ok update_ok st :
  (a < cent)%Q \/ (prop_current_balance debtor < a)%Q ->
  exists message,
    handleSubmit (Some debtor) (Some a) insert_ok update_ok st
      = (Invalid message, st).
Proof.
  intros H. unfold handleSubmit, paymentSchema.
  destruct (Qltb a cent) eqn:Hmin; [eauto|].
  destruct H as [H|H].
  - apply Qltb_true in H. congruence.
  - apply Qltb_true in H. rewrite H. eauto.
Qed.

Lemma payment_out_of_range_writes_nothing_witness :
  exists message,
    handleSubmit (Some (mkDebtorProp 7 "Ada Obi" (600 # 1) (400 # 1)))
      (Some (700 # 1)) true true Examples.paid_400
      = (Invalid message, Examples.paid_400).
Proof.
  apply (payment_out_of_range_writes_nothing
           (mkDebtorProp 7 "Ada Obi" (600 # 1) (400 # 1)) (700 # 1)).
  right. vm_compute. reflexivity.
Defined.

(** The part of C6 that the code has: once the debtor row is inserted, a
    failure of the debt_items insert ends [createDebtor] with an error and
    leaves the debtor row in the store, every other table as before; and a
    failure of the initial-payment insert leaves the debtor row and the debt
    items in the store, the payments table as before. *)
Lemma createDebtor_no_rollback userId fd row debtor_id st :
  newDebtor userId fd = inr row ->
  debtors st !! debtor_id = None ->
  (forall payment_ok,
      createDebtor userId fd (Inserted debtor_id) false payment_ok st
        = (Failed "Error adding items", fd,
           set_debtors (<[debtor_id := row]> (debtors st)) st)) /\
  (forall o fd' st',
      createDebtor userId fd (Inserted debtor_id) true false st = (o, fd', st') ->
      debtors st' !! debtor_id = Some row /\
      debt_items st' = debt_items st ++ itemsToInsert debtor_id fd /\
      payments st' = payments st).
Proof.
  intros Hnew Hfree. unfold createDebtor. rewrite Hnew. simpl. rewrite Hfree.
  split; [reflexivity|].
  intros o fd' st'. simpl.
  destruct (Qltb 0 (paymentAmount fd)); simpl; intros [= _ _ <-]; simpl;
    (split; [apply lookup_insert_eq | split; reflexivity]).
Qed.

(** C6, where the code departs from it. When the debtor row and the debt
    items are inserted and the insert of the initial payment fails,
    [createDebtor] does not stop with an error: it ends with the success
    toast and resets the form. The debtor row, whose total_paid already
    counts the payment, and the debt items stay in the store, and no payment
    row exists. *)
Theorem createDebtor_ignores_payment_failure userId fd row debtor_id st :
  newDebtor userId fd = inr row ->
  debtors st !! debtor_id = None ->
  (0 < paymentAmount fd)%Q ->
  createDebtor userId fd (Inserted debtor_id) true false st
    = (Done "Debtor created successfully!", initialForm,
       set_debt_items (debt_items st ++ itemsToInsert debtor_id fd)
         (set_debtors (<[debtor_id := row]> (debtors st)) st)) /\
  (total_paid row == paymentAmount fd)%Q.
Proof.
  intros Hnew Hfree Hpay. split.
  - unfold createDebtor. rewrite Hnew. simpl. rewrite Hfree. simpl.
    apply Qltb_true in Hpay. rewrite Hpay. reflexivity.
  - apply newDebtor_row in Hnew as (_ & -> & _). reflexivity.
Qed.

Lemma createDebtor_ignores_payment_failure_witness :
  exists row,
    createDebtor 1 Examples.form_paying (Inserted 7) true false Db.empty
      = (Done "Debtor created successfully!", initialForm,
         set_debt_items (debt_items Db.empty ++ itemsToInsert 7 Examples.form_paying)
           (set_debtors (<[7%nat := row]> (debtors Db.empty)) Db.empty)) /\
    (total_paid row == paymentAmount Examples.form_paying)%Q.
Proof.
  destruct (newDebtor 1 Examples.form_paying) as [m|row] eqn:Hnew;
    [vm_compute in Hnew; discriminate|].
  exists row.
  apply (createDebtor_ignores_payment_failure 1 Examples.form_paying row 7
           Db.empty Hnew eq_refl).
  reflexivity.
Defined.





End DebtClaims.

(** ** Sales and stock *)

Section SalesAndStock.
Import Db SalesPage.

Variable ilike : string -> string -> bool.

Lemma saleSchema_accepts fd q c p :
  saleSchema fd = Some (q, c, p) ->
  f_quantity fd = Some q /\ f_cost_price fd = Some c /\
  f_selling_price fd = Some p /\ (1 <= q)%Z.
Proof.
  unfold saleSchema. destruct (_ && _); [|discriminate].
  destruct (f_quantity fd) as [q'|]; [|discriminate].
  destruct (f_cost_price fd) as [c'|]; [|discriminate].
  destruct (f_selling_price fd) as [p'|]; [|discriminate].
  destruct (1 <=? q')%Z eqn:Hq; simpl; [|discriminate].
  destruct (_ && _); [|discriminate].
  intros [= -> -> ->]. repeat split. lia.
Qed.

(** The row that [maybeSingle] hands over is a row of the stock table. *)
Lemma maybeSingle_select_stock select_ok userId name st stock_id stockItem :
  maybeSingle select_ok (select_stock ilike userId name st)
    = Some (stock_id, stockItem) ->
  stock st !! stock_id = Some stockItem /\
  stock_user_id stockItem = userId /\
  ilike name (stock_product_name stockItem) = true.
Proof.
  unfold maybeSingle. destruct select_ok; [|discriminate].
  destruct (select_stock ilike userId name st) as [|kr [|]] eqn:Hrows;
    try discriminate.
  intros [= ->].
  assert (Hin : (stock_id, stockItem) ∈ select_stock ilike userId name st)
    by (rewrite Hrows; apply list_elem_of_here).
  unfold select_stock in Hin.
  apply elem_of_map_to_list, map_lookup_filter_Some in Hin as [Hrow [Hu Hm]].
  auto.
Qed.

(** Without a matching row the query is empty. *)
Lemma select_stock_no_match userId name st :
  (forall k r, stock st !! k = Some r -> stock_user_id r = userId ->
               ilike name (stock_product_name r) = false) ->
  select_stock ilike userId name st = [].
Proof.
  intros Hno. unfold select_stock.
  apply map_to_list_empty_iff, map_empty. intros k.
  apply map_lookup_filter_None.
  destruct (stock st !! k) as [r|] eqn:Hk; [right|by left].
  intros x [= <-] [Hu Hm]. simpl in *.
  rewrite (Hno k r Hk Hu) in Hm. discriminate.
Qed.

Lemma alter_nonneg (f : StockRow -> StockRow) k (t : gmap Id StockRow) :
  map_Forall (fun _ r => (0 <= stock_quantity r)%Z) t ->
  (forall r, t !! k = Some r -> (0 <= stock_quantity (f r))%Z) ->
  map_Forall (fun _ r => (0 <= stock_quantity r)%Z) (alter f k t).
Proof.
  intros Ht Hf j y Hj.
  apply lookup_alter_Some in Hj as [[-> (x & Hx & ->)] | [_ Hj]].
  - by apply Hf.
  - by apply (Ht j).
Qed.

(** The store after [handleSubmit], by cases on the handler's path. *)
Lemma handleSubmit_stock_path userId fd q c p stock_id stockItem
    select_ok update_ok insert_ok st :
  saleSchema fd = Some (q, c, p) ->
  maybeSingle select_ok (select_stock ilike userId (trim (f_product_name fd)) st)
    = Some (stock_id, stockItem) ->
  handleSubmit ilike userId fd select_ok update_ok insert_ok st =
    if (stock_quantity stockItem <? q)%Z then (Invalid "Insufficient stock", st)
    else if update_ok then
      let st1 := set_stock (alter (deduct q stockItem) stock_id (stock st)) st in
      if insert_ok then
        (Done "Sale recorded successfully! Stock updated.",
         set_sales
           (sales st ++
              [mkSale userId (f_sale_date fd) (f_sale_time fd)
                      (trim (f_product_name fd)) q c p
                      (inject_Z q * c) (inject_Z q * p)
                      (inject_Z q * p - inject_Z q * c)])
           st1)
      else (Failed "Error adding sale", st1)
    else (Failed "Error updating stock", st).
Proof.
  intros Hs Hsel. unfold handleSubmit. rewrite Hs, Hsel.
  destruct (_ <? _)%Z; [reflexivity|].
  destruct update_ok; simpl; [|reflexivity].
  destruct insert_ok; reflexivity.
Qed.

Lemma handleSubmit_no_stock_path userId fd q c p select_ok update_ok insert_ok st :
  saleSchema fd = Some (q, c, p) ->
  maybeSingle select_ok (select_stock ilike userId (trim (f_product_name fd)) st)
    = None ->
  handleSubmit ilike userId fd select_ok update_ok insert_ok st =
    if insert_ok then
      (Done "Sale recorded successfully!",
       set_sales
         (sales st ++
            [mkSale userId (f_sale_date fd) (f_sale_time fd)
                    (trim (f_product_name fd)) q c p
                    (inject_Z q * c) (inject_Z q * p)
                    (inject_Z q * p - inject_Z q * c)])
         st)
    else (Failed "Error adding sale", st).
Proof.
  intros Hs Hsel. unfold handleSubmit. rewrite Hs, Hsel.
  destruct insert_ok; reflexivity.
Qed.

(** C2, as the code has it. A sale of quantity [q] whose stock lookup (the
    query succeeds and exactly one row of the user matches the product
    name) returned the item
    [stockItem] with quantity [s]: it ends with the success toast only if
    [q <= s], and then the stock row has quantity [s - q] and total_sold
    raised by [q], and the sale row is inserted; it does end so when
    [q <= s] and the store accepts both writes; and if [q > s] it is refused
    and the whole store, stock and sales, is as before. *)
Theorem sale_against_stock userId fd q c p stock_id stockItem
    select_ok update_ok insert_ok st :
  saleSchema fd = Some (q, c, p) ->
  maybeSingle select_ok (select_stock ilike userId (trim (f_product_name fd)) st)
    = Some (stock_id, stockItem) ->
  let s := stock_quantity stockItem in
  let result := handleSubmit ilike userId fd select_ok update_ok insert_ok st in
  stock st !! stock_id = Some stockItem /\
  (forall title, result.1 = Done title ->
     (q <= s)%Z /\
     (exists r, stock result.2 !! stock_id = Some r /\
                stock_quantity r = (s - q)%Z /\
                stock_total_sold r = (stock_total_sold stockItem + q)%Z) /\
     (exists sale, sales result.2 = sales st ++ [sale] /\ sale_quantity sale = q)) /\
  ((q <= s)%Z -> update_ok = true -> insert_ok = true ->
     exists title, result.1 = Done title) /\
  ((s < q)%Z -> result = (Invalid "Insufficient stock", st)).
Proof.
  intros Hs Hsel s result.
  pose proof (maybeSingle_select_stock _ _ _ _ _ _ Hsel) as (Hrow & _ & _).
  subst result. rewrite (handleSubmit_stock_path _ _ _ _ _ _ _ _ _ _ _ Hs Hsel).
  fold s. split; [assumption|].
  destruct (s <? q)%Z eqn:Hlt.
  - apply Z.ltb_lt in Hlt. repeat split; try discriminate; try lia; eauto.
  - apply Z.ltb_ge in Hlt. split; [|split; [|lia]].
    + intros title. destruct update_ok; [|discriminate].
      destruct insert_ok; [|discriminate]. simpl. intros _.
      split; [assumption|]. split.
      * exists (deduct q stockItem stockItem).
        rewrite lookup_alter_eq, Hrow. auto.
      * eauto.
    + intros _ -> ->. simpl. eauto.
Qed.

(** C3. The sale row that a successful [handleSubmit] inserts carries the
    quantity and the prices of the form and total_cost = q * c,
    revenue = q * p, profit_loss = revenue - total_cost. *)
Theorem sale_derived_fields userId fd select_ok update_ok insert_ok st title st' :
  handleSubmit ilike userId fd select_ok update_ok insert_ok st = (Done title, st') ->
  exists q c p sale,
    f_quantity fd = Some q /\ f_cost_price fd = Some c /\
    f_selling_price fd = Some p /\
    sales st' = sales st ++ [sale] /\
    sale_quantity sale = q /\ sale_cost_price sale = c /\
    sale_selling_price sale = p /\
    (sale_total_cost sale == inject_Z q * c)%Q /\
    (sale_revenue sale == inject_Z q * p)%Q /\
    (sale_profit_loss sale == sale_revenue sale - sale_total_cost sale)%Q.
Proof.
  destruct (saleSchema fd) as [[[q c] p]|] eqn:Hs;
    [|unfold handleSubmit; rewrite Hs; discriminate].
  pose proof (saleSchema_accepts _ _ _ _ Hs) as (Hq & Hc & Hp & _).
  destruct (maybeSingle select_ok
              (select_stock ilike userId (trim (f_product_name fd)) st))
    as [[stock_id stockItem]|] eqn:Hsel.
  - rewrite (handleSubmit_stock_path _ _ _ _ _ _ _ _ _ _ _ Hs Hsel).
    destruct (_ <? _)%Z; [discriminate|].
    destruct update_ok; [|discriminate].
    destruct insert_ok; [|discriminate].
    intros [= _ <-]. do 4 eexists. simpl.
    repeat split; try eassumption; reflexivity.
  - rewrite (handleSubmit_no_stock_path _ _ _ _ _ _ _ _ _ Hs Hsel).
    destruct insert_ok; [|discriminate].
    intros [= _ <-]. do 4 eexists. simpl.
    repeat split; try eassumption; reflexivity.
Qed.

(** C9. When no stock row of the user passes the [ilike] filter on the
    product name, [handleSubmit] makes no stock check: the stock table is
    untouched, and for any quantity the form accepts the sale row is
    inserted as soon as the store accepts the insert. *)
Theorem sale_without_stock_match userId fd q c p select_ok update_ok insert_ok st :
  saleSchema fd = Some (q, c, p) ->
  (forall k r, stock st !! k = Some r -> stock_user_id r = userId ->
               ilike (trim (f_product_name fd)) (stock_product_name r) = false) ->
  let result := handleSubmit ilike userId fd select_ok update_ok insert_ok st in
  stock result.2 = stock st /\
  (insert_ok = true ->
     exists sale,
       result = (Done "Sale recorded successfully!",
                 set_sales (sales st ++ [sale]) st) /\
       sale_quantity sale = q).
Proof.
  intros Hs Hno result. subst result.
  rewrite (handleSubmit_no_stock_path _ _ q c p _ _ _ _ Hs).
  - destruct insert_ok; simpl; split; try reflexivity; try discriminate.
    intros _. eexists. split; reflexivity.
  - rewrite (select_stock_no_match _ _ _ Hno). by destruct select_ok.
Qed.

(** C5. Adding a stock item, restocking an item shown with a quantity
    >= 0, and recording a sale each take a stock table without negative
    quantities to a stock table without negative quantities, whatever the
    form holds and whatever the store replies. *)
Theorem stock_quantity_stays_nonnegative st :
  stock_nonneg st ->
  (forall userId fd reply,
      stock_nonneg (StockManagement.handleSubmit userId fd reply st).2) /\
  (forall restockItem restockQuantity update_ok,
      (forall k item, restockItem = Some (k, item) -> (0 <= stock_quantity item)%Z) ->
      stock_nonneg
        (StockManagement.handleRestock restockItem restockQuantity update_ok st).2) /\
  (forall userId fd select_ok update_ok insert_ok,
      stock_nonneg (handleSubmit ilike userId fd select_ok update_ok insert_ok st).2).
Proof.
  intros Hst. split; [|split].
  - intros userId fd reply. unfold StockManagement.handleSubmit.
    destruct (StockManagement.stockSchema fd) as [[q c]|] eqn:Hs; [|assumption].
    unfold insert_row. destruct reply as [|k]; [assumption|].
    destruct (stock st !! k); [assumption|].
    unfold stock_nonneg. simpl. apply map_Forall_insert_2; [|assumption].
    simpl. unfold StockManagement.stockSchema in Hs.
    destruct (_ && _); [|discriminate].
    destruct (StockManagement.f_quantity fd) as [q'|]; [|discriminate].
    destruct (StockManagement.f_cost_price fd) as [c'|]; [|discriminate].
    destruct (1 <=? q')%Z eqn:Hq; simpl in Hs; [|discriminate].
    destruct (Qleb cent c'); [|discriminate].
    injection Hs as -> ->. lia.
  - intros restockItem field update_ok Hitem.
    unfold StockManagement.handleRestock.
    destruct restockItem as [[k item]|]; [|assumption].
    destruct field as [|[add|]]; try assumption.
    destruct (add <? 1)%Z eqn:Hadd; [assumption|].
    destruct update_ok; [|assumption].
    unfold stock_nonneg. simpl. apply alter_nonneg; [assumption|].
    intros r _. simpl. specialize (Hitem k item eq_refl). lia.
  - intros userId fd select_ok update_ok insert_ok.
    destruct (saleSchema fd) as [[[q c] p]|] eqn:Hs;
      [|unfold handleSubmit; rewrite Hs; assumption].
    destruct (maybeSingle select_ok
                (select_stock ilike userId (trim (f_product_name fd)) st))
      as [[stock_id stockItem]|] eqn:Hsel.
    + rewrite (handleSubmit_stock_path _ _ _ _ _ _ _ _ _ _ _ Hs Hsel).
      destruct (_ <? _)%Z eqn:Hlt; [assumption|].
      destruct update_ok; [|assumption].
      assert (stock_nonneg
                (set_stock (alter (deduct q stockItem) stock_id (stock st)) st)).
      { unfold stock_nonneg. simpl. apply alter_nonneg; [assumption|].
        intros r _. simpl. lia. }
      destruct insert_ok; assumption.
    + rewrite (handleSubmit_no_stock_path _ _ _ _ _ _ _ _ _ Hs Hsel).
      destruct insert_ok; assumption.
Qed.

End SalesAndStock.

(** The claims above at the sample shop, with case-insensitive equality as
    the [ilike] filter. *)

Section SalesWitnesses.
Import Db SalesPage.

Lemma shop_rows k r :
  stock Examples.shop !! k = Some r ->
  k = 3%nat /\ r = mkStock 1 "Rice" 5 (10 # 1) 2.
Proof.
  unfold Examples.shop. simpl. intros H.
  apply lookup_insert_Some in H as [[<- <-]|[_ H]]; [auto|].
  by rewrite lookup_empty in H.
Qed.

Lemma sale_against_stock_witness :
  let result := handleSubmit Examples.same_letters 1 (Examples.sale_of " rice" 3)
                  true true true Examples.shop in
  stock Examples.shop !! 3%nat = Some (mkStock 1 "Rice" 5 (10 # 1) 2) /\
  (forall title, result.1 = Done title ->
     (3 <= 5)%Z /\
     (exists r, stock result.2 !! 3%nat = Some r /\
                stock_quantity r = (5 - 3)%Z /\
                stock_total_sold r = (2 + 3)%Z) /\
     (exists sale, sales result.2 = sales Examples.shop ++ [sale] /\
                   sale_quantity sale = 3%Z)) /\
  ((3 <= 5)%Z -> true = true -> true = true -> exists title, result.1 = Done title) /\
  ((5 < 3)%Z -> result = (Invalid "Insufficient stock", Examples.shop)).
Proof.
  apply (sale_against_stock Examples.same_letters 1 (Examples.sale_of " rice" 3)
           3%Z (10 # 1) (15 # 1) 3%nat (mkStock 1 "Rice" 5 (10 # 1) 2)
           true true true Examples.shop).
  - vm_compute. reflexivity.
  - vm_compute. reflexivity.
Defined.

Lemma sale_derived_fields_witness :
  exists q c p sale,
    f_quantity (Examples.sale_of " rice" 3) = Some q /\
    f_cost_price (Examples.sale_of " rice" 3) = Some c /\
    f_selling_price (Examples.sale_of " rice" 3) = Some p /\
    sales (handleSubmit Examples.same_letters 1 (Examples.sale_of " rice" 3)
             true true true Examples.shop).2
      = sales Examples.shop ++ [sale] /\
    sale_quantity sale = q /\ sale_cost_price sale = c /\
    sale_selling_price sale = p /\
    (sale_total_cost sale == inject_Z q * c)%Q /\
    (sale_revenue sale == inject_Z q * p)%Q /\
    (sale_profit_loss sale == sale_revenue sale - sale_total_cost sale)%Q.
Proof.
  apply (sale_derived_fields Examples.same_letters 1 (Examples.sale_of " rice" 3)
           true true true Examples.shop
           "Sale recorded successfully! Stock updated.").
  vm_compute. reflexivity.
Defined.

Lemma sale_without_stock_match_witness :
  let result := handleSubmit Examples.same_letters 1 (Examples.sale_of "beans" 1000)
                  true true true Examples.shop in
  stock result.2 = stock Examples.shop /\
  (true = true ->
     exists sale,
       result = (Done "Sale recorded successfully!",
                 set_sales (sales Examples.shop ++ [sale]) Examples.shop) /\
       sale_quantity sale = 1000%Z).
Proof.
  apply (sale_without_stock_match Examples.same_letters 1
           (Examples.sale_of "beans" 1000) 1000%Z (10 # 1) (15 # 1)
           true true true Examples.shop).
  - vm_compute. reflexivity.
  - intros k r Hrow _. apply shop_rows in Hrow as [_ ->]. vm_compute. reflexivity.
Defined.

Lemma stock_quantity_stays_nonnegative_witness :
  stock_nonneg
    (StockManagement.handleSubmit 1
       (StockManagement.mkFormData "Beans" (Some 12%Z) (Some (7 # 1)))
       (Inserted 4) Examples.shop).2 /\
  stock_nonneg
    (StockManagement.handleRestock (Some (3%nat, mkStock 1 "Rice" 5 (10 # 1) 2))
       (StockManagement.Typed (Some 20%Z)) true Examples.shop).2 /\
  stock_nonneg
    (handleSubmit Examples.same_letters 1 (Examples.sale_of "rice" 5)
       true true true Examples.shop).2.
Proof.
  assert (H : stock_nonneg Examples.shop).
  { intros k r Hrow. apply shop_rows in Hrow as [_ ->]. simpl. lia. }
  destruct (stock_quantity_stays_nonnegative Examples.same_letters
              Examples.shop H) as (Hadd & Hrestock & Hsale).
  split; [apply Hadd | split; [apply Hrestock | apply Hsale]].
  intros k item [= <- <-]. simpl. lia.
Defined.

(** C2, as stated, fails for a stock item that exists and is not returned
    by the lookup. The shop holds five units of rice. When the query for
    the stock row fails, a sale of 100 units of rice ends with the success
    toast, the sale row is inserted and the stock row is as before. The
    same happens, with every reply of the store a success, once rice is in
    the stock table twice: the lookup expects at most one row and returns
    none. *)
Lemma sale_of_existing_item_unchecked :
  let failed_query :=
    handleSubmit Examples.same_letters 1 (Examples.sale_of "Rice" 100)
      false true true Examples.shop in
  let two_rows :=
    handleSubmit Examples.same_letters 1 (Examples.sale_of "Rice" 100)
      true true true Examples.shop_twice in
  stock Examples.shop !! 3%nat = Some (mkStock 1 "Rice" 5 (10 # 1) 2) /\
  Examples.same_letters "Rice" "Rice" = true /\
  ~ (100 <= 5)%Z /\
  (failed_query.1 = Done "Sale recorded successfully!" /\
   (exists sale, sales failed_query.2 = [sale] /\ sale_quantity sale = 100%Z) /\
   stock failed_query.2 = stock Examples.shop) /\
  (two_rows.1 = Done "Sale recorded successfully!" /\
   (exists sale, sales two_rows.2 = [sale] /\ sale_quantity sale = 100%Z) /\
   stock two_rows.2 = stock Examples.shop_twice).
Proof.
  split; [vm_compute; reflexivity|]. split; [reflexivity|]. split; [lia|].
  split.
  - split; [vm_compute; reflexivity|]. split; [|vm_compute; reflexivity].
    eexists. split; vm_compute; reflexivity.
  - split; [vm_compute; reflexivity|]. split; [|vm_compute; reflexivity].
    eexists. split; vm_compute; reflexivity.
Qed.

End SalesWitnesses.

(** ** CSV export *)

Section Csv.
Import ExportCsv.

#[local] Arguments String.append !_ _ / : simpl nomatch.

Lemma append_empty_r s : String.append s EmptyString = s.
Proof. induction s as [|c s IH]; simpl; [reflexivity | by rewrite IH]. Qed.

Lemma append_assoc s1 s2 s3 :
  String.append (String.append s1 s2) s3 = String.append s1 (String.append s2 s3).
Proof. induction s1 as [|c s1 IH]; simpl; [reflexivity | by rewrite IH]. Qed.

Lemma line_end_boundary rest : line_end rest -> boundary rest.
Proof. destruct 1; constructor. Qed.

Lemma scan_line_end rest :
  line_end rest -> scan FieldStart rest = [EmptyString] :: following rest.
Proof. destruct 1; reflexivity. Qed.

Lemma scan_Unquoted_boundary rest :
  boundary rest -> scan Unquoted rest = scan FieldStart rest.
Proof. destruct 1; reflexivity. Qed.

Lemma scan_QuoteSeen_boundary rest :
  boundary rest -> scan QuoteSeen rest = scan FieldStart rest.
Proof. destruct 1; reflexivity. Qed.

Lemma includes_cons_false c c' s :
  includes c (String c' s) = false -> Ascii.eqb c' c = false /\ includes c s = false.
Proof. simpl. apply orb_false_elim. Qed.

Lemma needs_quotes_cons_false c s :
  needs_quotes (String c s) = false ->
  Ascii.eqb c comma = false /\ Ascii.eqb c dquote = false /\
  Ascii.eqb c newline = false /\ needs_quotes s = false.
Proof.
  unfold needs_quotes. intros H.
  apply orb_false_elim in H as [H Hn]. apply orb_false_elim in H as [Hc Hq].
  apply includes_cons_false in Hn as [-> Hn].
  apply includes_cons_false in Hc as [-> Hc].
  apply includes_cons_false in Hq as [-> Hq].
  rewrite Hc, Hq, Hn. auto.
Qed.

Lemma scan_unquoted v rest :
  needs_quotes v = false -> boundary rest ->
  scan Unquoted (String.append v rest) = prepend v (scan FieldStart rest).
Proof.
  intros Hv Hrest. induction v as [|c v IH]; simpl.
  - by apply scan_Unquoted_boundary.
  - apply needs_quotes_cons_false in Hv as (Hc & _ & Hn & Hv).
    rewrite Hc, Hn, IH; auto.
Qed.

Lemma scan_plain v rest :
  needs_quotes v = false -> boundary rest ->
  scan FieldStart (String.append v rest) = prepend v (scan FieldStart rest).
Proof.
  intros Hv Hrest. destruct v as [|c v]; simpl; [reflexivity|].
  apply needs_quotes_cons_false in Hv as (Hc & Hq & Hn & Hv).
  rewrite Hc, Hq, Hn, scan_unquoted; auto.
Qed.

Lemma scan_quoted v rest :
  boundary rest ->
  scan Quoted (String.append (replace_quotes v) (String dquote rest))
    = prepend v (scan FieldStart rest).
Proof.
  intros Hrest. induction v as [|c v IH]; simpl.
  - by apply scan_QuoteSeen_boundary.
  - destruct (Ascii.eqb c dquote) eqn:Hc; simpl.
    + apply Ascii.eqb_eq in Hc as ->. simpl. by rewrite IH.
    + by rewrite Hc, IH.
Qed.

(** Reading one exported field gives back what was written. *)
Lemma scan_field value rest :
  boundary rest ->
  scan FieldStart (String.append (field value) rest)
    = prepend (written value) (scan FieldStart rest).
Proof.
  intros Hrest. destruct value as [| |s]; simpl; try reflexivity.
  destruct (needs_quotes s) eqn:Hs.
  - simpl. rewrite append_assoc. simpl. by apply scan_quoted.
  - by apply scan_plain.
Qed.

Lemma prepend_first v f fs rs :
  prepend v ((f :: fs) :: rs) = (String.append v f :: fs) :: rs.
Proof. induction v as [|c v IH]; simpl; [reflexivity | by rewrite IH]. Qed.

Lemma join_cons sep x y l :
  join sep (x :: y :: l) = String.append x (String sep (join sep (y :: l))).
Proof. reflexivity. Qed.

Lemma append_cons c s t : String.append (String c s) t = String c (String.append s t).
Proof. reflexivity. Qed.

Lemma scan_comma rest :
  scan FieldStart (String comma rest) = new_field (scan FieldStart rest).
Proof. reflexivity. Qed.

(** Reading one exported line gives back its fields. *)
Lemma scan_line (cells : list Value) rest :
  cells <> [] -> line_end rest ->
  scan FieldStart (String.append (join comma (map field cells)) rest)
    = map written cells :: following rest.
Proof.
  intros Hne Hrest. induction cells as [|v cells IH]; [done|].
  destruct cells as [|v2 cells].
  - change (join comma (map field [v])) with (field v).
    rewrite scan_field by (by apply line_end_boundary).
    rewrite scan_line_end by done.
    by rewrite prepend_first, append_empty_r.
  - change (map field (v :: v2 :: cells))
      with (field v :: field v2 :: map field cells).
    rewrite join_cons, append_assoc, append_cons.
    rewrite scan_field by constructor.
    rewrite scan_comma.
    change (field v2 :: map field cells) with (map field (v2 :: cells)).
    rewrite IH by done.
    unfold new_field. by rewrite prepend_first, append_empty_r.
Qed.

(** Reading a file of exported lines gives back the lines. *)
Lemma scan_lines (lines : list (list Value)) :
  lines <> [] -> Forall (fun cells => cells <> []) lines ->
  scan FieldStart (join newline (map (fun cells => join comma (map field cells)) lines))
    = map (map written) lines.
Proof.
  intros Hne Hall. induction lines as [|cells lines IH]; [done|].
  apply Forall_cons in Hall as [Hcells Hall].
  destruct lines as [|cells2 lines].
  - change (join newline (map ?f [cells])) with (f cells). cbv beta.
    rewrite <- (append_empty_r (join comma (map field cells))).
    rewrite scan_line by (done || constructor). reflexivity.
  - change (map ?f (cells :: cells2 :: lines))
      with (f cells :: f cells2 :: map f lines).
    cbv beta. rewrite join_cons.
    rewrite scan_line by (done || constructor).
    unfold following.
    change (join comma (map field cells2)
              :: map (fun cs => join comma (map field cs)) lines)
      with (map (fun cs => join comma (map field cs)) (cells2 :: lines)).
    by rewrite IH.
Qed.

Lemma join_plain_keys keys :
  Forall plain keys -> map field (map Other keys) = keys.
Proof.
  induction 1 as [|k keys Hk _ IH]; simpl; [reflexivity|].
  unfold plain in Hk. by rewrite Hk, IH.
Qed.

(** The whole file read back, for a non-empty list of plain column names. *)
Lemma parse_export inherited filename row0 rest headers :
  let rows := row0 :: rest in
  let keys := columns row0 headers in
  keys <> [] -> Forall plain keys ->
  exists file content,
    exportToCsv inherited filename rows headers = Some (file, content) /\
    parseCsv content
      = keys :: map (fun row => map (fun key => written (get inherited key row)) keys)
                    rows.
Proof.
  intros rows keys Hne Hplain. do 2 eexists. split; [reflexivity|].
  unfold parseCsv. fold keys.
  pose (cells := fun row : Row => map (fun key => get inherited key row) keys).
  assert (Hlines :
    join comma keys :: map (line inherited keys) rows
    = map (fun cs => join comma (map field cs)) (map Other keys :: map cells rows)).
  { simpl. rewrite join_plain_keys by done. f_equal. f_equal.
    - unfold line, cells. by rewrite map_map.
    - rewrite map_map. apply map_ext. intros row. unfold line, cells.
      by rewrite map_map. }
  fold rows. rewrite Hlines, scan_lines.
  - simpl. f_equal.
    + rewrite map_map. simpl. apply map_id.
    + f_equal; [unfold cells; by rewrite map_map|].
      rewrite map_map. apply map_ext. intros row. unfold cells. by rewrite map_map.
  - done.
  - constructor; [by destruct keys|].
    apply Forall_map. apply Forall_forall. intros row _. unfold cells.
    by destruct keys.
Qed.

Lemma lookup_map {A B} (f : A -> B) (l : list A) i :
  map f l !! i = f <$> l !! i.
Proof.
  revert i. induction l as [|x l IH]; intros [|i]; simpl; try reflexivity.
  apply IH.
Qed.

(** C4, as the code has it. For a non-empty list of records and column
    names free of commas, double quotes and line feeds, reading the
    exported text back gives, for every row and every column, [String] of
    [row[key]] when that value is neither [null] nor [undefined], and the
    empty string when it is; [row[key]] is the record's own field or, for a
    column the record lacks, what it inherits. Commas, double quotes and
    line feeds inside field values are recovered. *)
Theorem export_then_parse inherited filename row0 rest headers :
  let rows := row0 :: rest in
  let keys := columns row0 headers in
  Forall plain keys ->
  exists file content,
    exportToCsv inherited filename rows headers = Some (file, content) /\
    forall i j row key,
      rows !! i = Some row -> keys !! j = Some key ->
      exists record,
        parseCsv content !! S i = Some record /\
        record !! j = Some (match get inherited key row with
                            | Null | Undefined => EmptyString
                            | value => String_ value
                            end).
Proof.
  intros rows keys Hplain.
  destruct (decide (keys = [])) as [Hnil|Hne].
  - do 2 eexists. split; [reflexivity|].
    intros i j row key _ Hkey. fold keys in Hkey. rewrite Hnil in Hkey. done.
  - destruct (parse_export inherited filename row0 rest headers Hne Hplain)
      as (file & content & Hexport & Hparse).
    exists file, content. split; [assumption|].
    intros i j row key Hrow Hkey. rewrite Hparse.
    exists (map (fun key => written (get inherited key row)) keys). split.
    + change ((?x :: ?l) !! S i) with (l !! i).
      rewrite lookup_map. fold rows. by rewrite Hrow.
    + rewrite lookup_map. fold keys. rewrite Hkey. simpl.
      by destruct (get inherited key row).
Qed.

Lemma export_then_parse_witness :
  let rows :=
    [[("Customer Name", Other "Obi, Ada"); ("Note", Other Examples.note)];
     [("Customer Name", Other "Eze"); ("Note", Other Examples.address)]] in
  let keys := ["Customer Name"; "Note"; "constructor"] in
  exists file content,
    exportToCsv Samples.object_prototype "debtors" rows (Some keys)
      = Some (file, content) /\
    forall i j row key,
      rows !! i = Some row -> keys !! j = Some key ->
      exists record,
        parseCsv content !! S i = Some record /\
        record !! j = Some (match get Samples.object_prototype key row with
                            | Null | Undefined => EmptyString
                            | value => String_ value
                            end).
Proof.
  apply (export_then_parse Samples.object_prototype "debtors"
           [("Customer Name", Other "Obi, Ada"); ("Note", Other Examples.note)]
           [[("Customer Name", Other "Eze");
             ("Note", Other Examples.address)]]
           (Some ["Customer Name"; "Note"; "constructor"])).
  repeat constructor.
Defined.

(** C4, as stated, fails on a [null] field: [String(null)] is the text
    null, and the exported file holds an empty field. It also fails when a
    column name starts with a double quote: the header line is written
    without quoting, and the reader takes the rest of the file for one
    quoted field, so that no record is left for the first row. *)
Lemma export_not_always_recovered :
  (exists content record,
      exportToCsv Samples.object_prototype "debtors" [[("Email", Null)]] None
        = Some ("debtors.csv", content) /\
      parseCsv content !! 1%nat = Some record /\
      record !! 0%nat
        <> Some (String_ (get Samples.object_prototype "Email" [("Email", Null)]))) /\
  (exists content,
      exportToCsv Samples.object_prototype "debtors"
        [[(Examples.quoted_key, Other "Ada")]] None
        = Some ("debtors.csv", content) /\
      parseCsv content !! 1%nat = None).
Proof.
  split.
  - do 2 eexists. split; [reflexivity|]. split; [reflexivity|].
    vm_compute. discriminate.
  - eexists. split; reflexivity.
Qed.

Lemma get_blank_nulls inherited key row :
  field (get inherited key (blank_nulls row)) = field (get inherited key row).
Proof.
  induction row as [|[k v] row IH]; simpl; [reflexivity|].
  destruct (String.eqb k key); [|assumption].
  by destruct v.
Qed.

Lemma line_blank_nulls inherited keys row :
  line inherited keys (blank_nulls row) = line inherited keys row.
Proof.
  unfold line. f_equal. apply map_ext. intros key. apply get_blank_nulls.
Qed.

Lemma keys_of_blank_nulls row : keys_of (blank_nulls row) = keys_of row.
Proof. unfold keys_of, blank_nulls. rewrite map_map. reflexivity. Qed.

(** The exported file is the same when [null] and [undefined] fields are
    replaced by empty strings. *)
Lemma export_blank_nulls inherited filename rows headers :
  exportToCsv inherited filename (map blank_nulls rows) headers
    = exportToCsv inherited filename rows headers.
Proof.
  destruct rows as [|row0 rows]; [reflexivity|].
  unfold exportToCsv. simpl map. cbv iota zeta.
  assert (Hkeys : columns (blank_nulls row0) headers = columns row0 headers).
  { destruct headers; simpl; [reflexivity | apply keys_of_blank_nulls]. }
  rewrite Hkeys, line_blank_nulls, map_map.
  do 5 f_equal. apply map_ext. intros row. apply line_blank_nulls.
Qed.

(** C10. For a non-empty list of records a file is produced: the line of
    the column names followed by one line per record, each the
    comma-separated list of one cell per column, and the cell of a field
    whose value is [null] or [undefined] is the empty string. The file is
    the very same when every [null] and [undefined] field of the records is
    replaced by the empty string. When the column names need no quoting, so
    that the file can be read back, every such field reads back as the
    empty string. For an empty list of rows nothing is produced. *)
Theorem null_and_undefined_export_as_empty inherited filename row0 rest headers :
  let rows := row0 :: rest in
  let keys := columns row0 headers in
  (exists file lines,
      exportToCsv inherited filename rows headers
        = Some (file, join newline (join comma keys :: lines)) /\
      exportToCsv inherited filename (map blank_nulls rows) headers
        = Some (file, join newline (join comma keys :: lines)) /\
      length lines = length rows /\
      forall i j row key,
        rows !! i = Some row -> keys !! j = Some key ->
        get inherited key row = Null \/ get inherited key row = Undefined ->
        exists cells,
          lines !! i = Some (join comma cells) /\
          length cells = length keys /\
          cells !! j = Some EmptyString) /\
  (Forall plain keys ->
   exists file content,
     exportToCsv inherited filename rows headers = Some (file, content) /\
     forall i j row key,
       rows !! i = Some row -> keys !! j = Some key ->
       get inherited key row = Null \/ get inherited key row = Undefined ->
       exists record,
         parseCsv content !! S i = Some record /\
         record !! j = Some EmptyString) /\
  exportToCsv inherited filename [] headers = None.
Proof.
  intros rows keys. split; [|split; [|reflexivity]].
  - exists (String.append filename ".csv"), (map (line inherited keys) rows).
    split; [reflexivity|].
    split; [by rewrite export_blank_nulls|].
    split; [apply length_map|].
    intros i j row key Hrow Hkey Hnull.
    exists (map (fun key => field (get inherited key row)) keys).
    split; [|split].
    + rewrite lookup_map, Hrow. reflexivity.
    + apply length_map.
    + rewrite lookup_map, Hkey. simpl. by destruct Hnull as [-> | ->].
  - intros Hplain.
    destruct (decide (keys = [])) as [Hnil|Hne].
    + do 2 eexists. split; [reflexivity|].
      intros i j row key _ Hkey. fold keys in Hkey. rewrite Hnil in Hkey. done.
    + destruct (parse_export inherited filename row0 rest headers Hne Hplain)
        as (file & content & Hexport & Hparse).
      exists file, content. split; [assumption|].
      intros i j row key Hrow Hkey Hnull. rewrite Hparse.
      exists (map (fun key => written (get inherited key row)) keys). split.
      * change ((?x :: ?l) !! S i) with (l !! i).
        rewrite lookup_map. fold rows. by rewrite Hrow.
      * rewrite lookup_map. fold keys. rewrite Hkey. simpl.
        by destruct Hnull as [-> | ->].
Qed.

(** A record with a [null] field, one that lacks the field and one that
    holds the empty string: the three lines end with an empty cell. *)
Lemma null_and_undefined_export_as_empty_witness :
  let rows :=
    [[("Customer Name", Other "Ada Obi"); ("Email", Null)];
     [("Customer Name", Other "Eze")];
     [("Customer Name", Other "Uche"); ("Email", Other EmptyString)]] in
  let keys := ["Customer Name"; "Email"] in
  Forall plain keys /\
  exportToCsv Samples.object_prototype "debtors" rows (Some keys)
  = Some ("debtors.csv",
          join newline ["Customer Name,Email"; "Ada Obi,"; "Eze,"; "Uche,"]) /\
  exists file content,
    exportToCsv Samples.object_prototype "debtors" rows (Some keys)
      = Some (file, content) /\
    forall i j row key,
      rows !! i = Some row -> keys !! j = Some key ->
      get Samples.object_prototype key row = Null \/
      get Samples.object_prototype key row = Undefined ->
      exists record,
        parseCsv content !! S i = Some record /\
        record !! j = Some EmptyString.
Proof.
  assert (Hplain : Forall plain ["Customer Name"; "Email"]) by repeat constructor.
  split; [exact Hplain|]. split; [vm_compute; reflexivity|].
  destruct (null_and_undefined_export_as_empty Samples.object_prototype "debtors"
              [("Customer Name", Other "Ada Obi"); ("Email", Null)]
              [[("Customer Name", Other "Eze")];
               [("Customer Name", Other "Uche"); ("Email", Other EmptyString)]]
              (Some ["Customer Name"; "Email"])) as (_ & Hread & _).
  exact (Hread Hplain).
Defined.

End Csv.


(** * Further properties of the handlers *)

(** ** Payments: bounds, refusals, stale copies, the payments table *)

Section PaymentsMore.
Import Db PaymentModal DebtPage.

Lemma newDebtor_bounds userId fd row :
  newDebtor userId fd = inr row ->
  (0 <= paymentAmount fd)%Q /\ (paymentAmount fd <= f_grand_total fd)%Q /\
  f_items fd <> [].
Proof.
  unfold newDebtor.
  destruct (negb _); [discriminate|].
  destruct (f_items fd) as [|item items]; [discriminate|]. simpl.
  destruct (Qltb (paymentAmount fd) 0) eqn:H0; [discriminate|].
  destruct (Qltb (f_grand_total fd) (paymentAmount fd)) eqn:HG; [discriminate|].
  apply Qltb_false in H0, HG. intros _. repeat split; try assumption. discriminate.
Qed.




(** X2. A debtor shown with no balance left takes no payment: whatever is
    typed, the modal refuses it and the store is returned as it was. *)
Theorem settled_debtor_refuses_payment debtor amount insert_ok update_ok st :
  (prop_current_balance debtor <= 0)%Q ->
  exists message,
    handleSubmit (Some debtor) amount insert_ok update_ok st = (Invalid message, st).
Proof.
  intros Hbal. unfold handleSubmit, paymentSchema.
  destruct amount as [a|]; [|eauto].
  destruct (Qltb a cent) eqn:Hmin; [eauto|].
  apply Qltb_false in Hmin. unfold cent in Hmin.
  assert (H : Qltb (prop_current_balance debtor) a = true) by (apply Qltb_true; lra).
  rewrite H. eauto.
Qed.

Lemma settled_debtor_refuses_payment_witness :
  exists message,
    handleSubmit (Some (mkDebtorProp 7 "Ada Obi" 0 (1000 # 1))) (Some (1 # 2))
      true true Examples.paid_1000
      = (Invalid message, Examples.paid_1000).
Proof.
  apply (settled_debtor_refuses_payment (mkDebtorProp 7 "Ada Obi" 0 (1000 # 1))).
  vm_compute. discriminate.
Defined.

(** X3. Two payments submitted from the same copy of the debtor (the list
    was not fetched again in between): both are inserted into the payments
    table, and the debtor row ends with the copy's total_paid plus the second
    amount only, the first amount being overwritten. *)
Theorem payments_from_one_copy debtor row a1 a2 st :
  debtors st !! id debtor = Some row ->
  (cent <= a1)%Q -> (a1 <= prop_current_balance debtor)%Q ->
  (cent <= a2)%Q -> (a2 <= prop_current_balance debtor)%Q ->
  let first := handleSubmit (Some debtor) (Some a1) true true st in
  let second := handleSubmit (Some debtor) (Some a2) true true first.2 in
  first.1 = Done "Payment recorded successfully!" /\
  second.1 = Done "Payment recorded successfully!" /\
  payments second.2
    = payments st ++ [mkPayment (id debtor) a1; mkPayment (id debtor) a2] /\
  exists row',
    debtors second.2 !! id debtor = Some row' /\
    total_paid row' = (prop_total_paid debtor + a2)%Q /\
    current_balance row' = (prop_current_balance debtor - a2)%Q.
Proof.
  intros Hrow H1 H1' H2 H2'.
  assert (E : forall a st0, (cent <= a)%Q -> (a <= prop_current_balance debtor)%Q ->
            handleSubmit (Some debtor) (Some a) true true st0
            = (Done "Payment recorded successfully!",
               set_debtors
                 (alter (update_balance (prop_total_paid debtor + a)
                           (prop_current_balance debtor - a)
                           (if Qleb (prop_current_balance debtor - a) 0
                            then "paid" else "pending"))
                        (id debtor) (debtors st0))
                 (set_payments (payments st0 ++ [mkPayment (id debtor) a]) st0))).
  { intros a st0 Hmin Hmax. unfold handleSubmit, paymentSchema.
    apply Qltb_false in Hmin, Hmax. rewrite Hmin, Hmax. reflexivity. }
  intros first second. subst first second.
  rewrite (E a1 st H1 H1'). cbn [fst snd]. rewrite E by assumption. simpl.
  repeat split.
  - rewrite <- app_assoc. reflexivity.
  - eexists. rewrite !lookup_alter_eq, Hrow. simpl. eauto.
Qed.

Lemma payments_from_one_copy_witness :
  let debtor := mkDebtorProp 7 "Ada Obi" (1000 # 1) 0 in
  let first := handleSubmit (Some debtor) (Some (400 # 1)) true true Examples.created in
  let second := handleSubmit (Some debtor) (Some (600 # 1)) true true first.2 in
  first.1 = Done "Payment recorded successfully!" /\
  second.1 = Done "Payment recorded successfully!" /\
  payments second.2
    = payments Examples.created ++ [mkPayment 7 (400 # 1); mkPayment 7 (600 # 1)] /\
  exists row',
    debtors second.2 !! 7 = Some row' /\
    total_paid row' = (0 + (600 # 1))%Q /\
    current_balance row' = ((1000 # 1) - (600 # 1))%Q.
Proof.
  destruct (debtors Examples.created !! 7) as [row|] eqn:Hrow;
    [|vm_compute in Hrow; discriminate].
  apply (payments_from_one_copy (mkDebtorProp 7 "Ada Obi" (1000 # 1) 0) row
           (400 # 1) (600 # 1) Examples.created Hrow);
    vm_compute; discriminate.
Defined.

(** What one attempt does to the payments table: nothing, or one more row
    for the debtor, of the amount typed. *)
Lemma handleSubmit_payments debtor amount insert_ok update_ok st o st1 :
  handleSubmit (Some debtor) amount insert_ok update_ok st = (o, st1) ->
  stock st1 = stock st /\ sales st1 = sales st /\ debt_items st1 = debt_items st /\
  ((payments st1 = payments st /\ forall title, o <> Done title) \/
   exists a, amount = Some a /\ (cent <= a)%Q /\
             payments st1 = payments st ++ [mkPayment (id debtor) a]).
Proof.
  unfold handleSubmit.
  destruct (paymentSchema amount) as [m|a] eqn:Hs;
    [intros [= <- <-]; repeat split; left; split; [reflexivity | discriminate]|].
  apply paymentSchema_accepts in Hs as [-> Hmin].
  destruct (Qltb (prop_current_balance debtor) a);
    [intros [= <- <-]; repeat split; left; split; [reflexivity | discriminate]|].
  destruct insert_ok; simpl;
    [|intros [= <- <-]; repeat split; left; split; [reflexivity | discriminate]].
  destruct update_ok; simpl; intros [= <- <-]; repeat split; right; eauto.
Qed.

(** X4. Over any run of payment attempts for a debtor the payments table
    only grows, by rows of that debtor, and the rows added sum to at least
    what the run added to total_paid; the other append-only tables and the
    stock are untouched. *)
Theorem payments_table_over_a_run debtor_id st amounts st' :
  session debtor_id st amounts st' ->
  stock st' = stock st /\ sales st' = sales st /\ debt_items st' = debt_items st /\
  exists added,
    payments st' = payments st ++ map (mkPayment debtor_id) added /\
    (Qsum amounts <= Qsum added)%Q.
Proof.
  induction 1 as [st | st row a i u title st1 amounts st2 Hrow Hpay _ IH
                     | st row amount i u o st1 amounts st2 Hrow Hpay Hno _ IH].
  - repeat split. exists []. simpl. split; [by rewrite app_nil_r | lra].
  - destruct IH as (Hs & Hsa & Hdi & added & Hp & Hsum).
    apply handleSubmit_payments in Hpay as (Hs1 & Hsa1 & Hdi1 & Hpay).
    split; [congruence|]. split; [congruence|]. split; [congruence|].
    destruct Hpay as [[_ Hno]|(a' & [= <-] & _ & Hp1)]; [by destruct (Hno title)|].
    exists (a :: added). simpl in *. split; [|lra].
    rewrite Hp, Hp1, <- app_assoc. reflexivity.
  - destruct IH as (Hs & Hsa & Hdi & added & Hp & Hsum).
    apply handleSubmit_payments in Hpay as (Hs1 & Hsa1 & Hdi1 & Hpay).
    split; [congruence|]. split; [congruence|]. split; [congruence|].
    destruct Hpay as [[Hp1 _]|(a' & _ & Hmin & Hp1)].
    + exists added. split; [congruence | assumption].
    + exists (a' :: added). simpl in *. unfold cent in Hmin. split; [|lra].
      rewrite Hp, Hp1, <- app_assoc. reflexivity.
Qed.

Lemma payments_table_over_a_run_witness :
  stock Examples.paid_1000 = stock Examples.created /\
  sales Examples.paid_1000 = sales Examples.created /\
  debt_items Examples.paid_1000 = debt_items Examples.created /\
  exists added,
    payments Examples.paid_1000
      = payments Examples.created ++ map (mkPayment 7) added /\
    (Qsum [400 # 1; 600 # 1] <= Qsum added)%Q.
Proof.
  apply (payments_table_over_a_run 7 Examples.created [400 # 1; 600 # 1]
           Examples.paid_1000).
  eapply (session_paid 7 Examples.created _ (400 # 1) true true
            "Payment recorded successfully!" Examples.paid_400).
  - vm_compute. reflexivity.
  - vm_compute. reflexivity.
  - eapply (session_paid 7 Examples.paid_400 _ (600 # 1) true true
              "Payment recorded successfully!" Examples.paid_1000).
    + vm_compute. reflexivity.
    + vm_compute. reflexivity.
    + apply session_end.
Defined.

End PaymentsMore.

(** ** Creating a debtor: refusals, retries, totals, names *)

Section CreateDebtorMore.
Import Db PaymentModal DebtPage Shapes.

(** X5. [createDebtor] never touches the stock or the sales; when it refuses
    the form or the debtors insert fails it returns the store as it was; and
    it keeps the form for another try unless it succeeded, in which case the
    form is reset. *)
Theorem createDebtor_frame userId fd reply items_ok payment_ok st :
  let result := createDebtor userId fd reply items_ok payment_ok st in
  stock result.2 = stock st /\ sales result.2 = sales st /\
  (((exists message, result.1.1 = Invalid message) \/
    result.1.1 = Failed "Error creating debtor") -> result.2 = st) /\
  ((forall title, result.1.1 <> Done title) -> result.1.2 = fd) /\
  ((exists title, result.1.1 = Done title) -> result.1.2 = initialForm).
Proof.
  unfold createDebtor.
  destruct (newDebtor userId fd) as [m|row]; simpl.
  { repeat split; try reflexivity. intros [title H]. discriminate. }
  destruct (insert_row reply row (debtors st)) as [[k debtors']|]; simpl.
  2: { repeat split; try reflexivity. intros [title H]. discriminate. }
  destruct items_ok; simpl.
  - destruct (Qltb 0 (paymentAmount fd)); [destruct payment_ok|]; simpl;
      (repeat split; try reflexivity;
       [intros [[m H]|H]; discriminate
       | intros H; by destruct (H "Debtor created successfully!")]).
  - repeat split; try reflexivity.
    + intros [[m H]|H]; discriminate.
    + intros [title H]. discriminate.
Qed.

(** X6. A second try after the debt_items insert failed leaves two debtor
    rows for the one form: the row of the first try stays, without items,
    beside the row of the second try. *)
Theorem createDebtor_retry_duplicates userId fd row id1 id2 payment_ok1 payment_ok2 st :
  newDebtor userId fd = inr row ->
  debtors st !! id1 = None -> debtors st !! id2 = None -> id1 <> id2 ->
  let first := createDebtor userId fd (Inserted id1) false payment_ok1 st in
  let second := createDebtor userId first.1.2 (Inserted id2) true payment_ok2 first.2 in
  first.1.1 = Failed "Error adding items" /\
  second.1.1 = Done "Debtor created successfully!" /\
  debtors second.2 !! id1 = Some row /\
  debtors second.2 !! id2 = Some row /\
  debt_items second.2 = debt_items st ++ itemsToInsert id2 fd.
Proof.
  intros Hnew H1 H2 Hne first second.
  assert (Hfirst : first = (Failed "Error adding items", fd,
                            set_debtors (<[id1 := row]> (debtors st)) st)).
  { subst first. unfold createDebtor. rewrite Hnew. simpl. by rewrite H1. }
  subst second. rewrite Hfirst. cbn [fst snd].
  unfold createDebtor. rewrite Hnew. simpl.
  rewrite lookup_insert_ne by done. rewrite H2. simpl.
  destruct (Qltb 0 (paymentAmount fd)); [destruct payment_ok2|]; simpl;
    (repeat split;
     [rewrite lookup_insert_ne by done; apply lookup_insert_eq
     | apply lookup_insert_eq]).
Qed.

Lemma createDebtor_retry_duplicates_witness :
  exists row,
    let first := createDebtor 1 Examples.form (Inserted 7) false true Db.empty in
    let second := createDebtor 1 first.1.2 (Inserted 8) true true first.2 in
    first.1.1 = Failed "Error adding items" /\
    second.1.1 = Done "Debtor created successfully!" /\
    debtors second.2 !! 7 = Some row /\
    debtors second.2 !! 8 = Some row /\
    debt_items second.2 = debt_items Db.empty ++ itemsToInsert 8 Examples.form.
Proof.
  destruct (newDebtor 1 Examples.form) as [m|row] eqn:Hnew;
    [vm_compute in Hnew; discriminate|].
  exists row.
  apply (createDebtor_retry_duplicates 1 Examples.form row 7 8 true true Db.empty
           Hnew eq_refl eq_refl).
  discriminate.
Defined.

Lemma itemSchema_bounds c q p :
  itemSchema c = Some (q, p) -> (1 <= q)%Z /\ (cent <= p)%Q.
Proof.
  unfold itemSchema. destruct (within 1 100 _); [|discriminate].
  destruct (c_quantity c) as [q'|]; [|discriminate].
  destruct (c_selling_price c) as [p'|]; [|discriminate].
  destruct (1 <=? q')%Z eqn:Hq; simpl; [|discriminate].
  destruct (Qleb cent p') eqn:Hp; [|discriminate].
  intros [= <- <-]. split; [lia | by apply Qleb_true].
Qed.

Lemma form_step_items_valid fd ev :
  Forall item_valid (f_items fd) -> Forall item_valid (f_items (form_step fd ev)).
Proof.
  intros H. destruct ev as [field | c | i]; simpl.
  - by destruct field.
  - unfold addItemToBundle. destruct (itemSchema c) as [[q p]|] eqn:Hs; [|assumption].
    simpl. apply Forall_app. split; [assumption|].
    constructor; [|constructor]. by apply itemSchema_bounds in Hs.
  - by apply Forall_delete.
Qed.

Lemma fill_items_valid events : Forall item_valid (f_items (fill events)).
Proof.
  unfold fill.
  assert (H : Forall item_valid (f_items initialForm)) by constructor.
  revert H. generalize initialForm.
  induction events as [|ev events IH]; intros fd H; simpl; [assumption|].
  apply IH. by apply form_step_items_valid.
Qed.

Lemma Qsum_nonneg l : Forall (fun x => (0 <= x)%Q) l -> (0 <= Qsum l)%Q.
Proof. induction 1 as [|x l Hx _ IH]; simpl; lra. Qed.

Lemma item_total_at_least_cent item :
  item_valid item ->
  (b_total item == inject_Z (b_quantity item) * b_selling_price item)%Q ->
  (cent <= b_total item)%Q.
Proof.
  intros [Hq Hp] ->.
  assert (H1 : (1 <= inject_Z (b_quantity item))%Q)
    by (change 1%Q with (inject_Z 1); by rewrite <- Zle_Qle).
  unfold cent in *.
  assert (H : (0 <= (inject_Z (b_quantity item) - 1) * b_selling_price item)%Q)
    by (apply Qmult_le_0_compat; lra).
  lra.
Qed.

(** X7. A debtor created from a form the user can reach owes at least 0.01:
    the grand total is at least 0.01, and a creation without initial payment
    is pending. *)
Theorem created_debtor_owes_something
    events userId debtor_id items_ok payment_ok st title fd' st' :
  createDebtor userId (fill events) (Inserted debtor_id) items_ok payment_ok st
    = (Done title, fd', st') ->
  exists row,
    debtors st' !! debtor_id = Some row /\
    (cent <= grand_total row)%Q /\
    ((paymentAmount (fill events) == 0)%Q -> status row = "pending").
Proof.
  intros Hcreate.
  apply createDebtor_done in Hcreate as (row & Hnew & _ & Hd & _).
  pose proof (newDebtor_bounds _ _ _ Hnew) as (_ & _ & Hne).
  apply newDebtor_row in Hnew as (HG & _ & HB & HS).
  destruct (fill_bundle_ok events) as [Htotals Hsum].
  pose proof (fill_items_valid events) as Hvalid.
  assert (Hcent : (cent <= f_grand_total (fill events))%Q).
  { rewrite Hsum. destruct (f_items (fill events)) as [|item items]; [done|].
    apply Forall_cons in Htotals as [Ht Hts]. apply Forall_cons in Hvalid as [Hv Hvs].
    simpl. pose proof (item_total_at_least_cent item Hv Ht).
    assert ((0 <= Qsum (map b_total items))%Q); [|lra].
    apply Qsum_nonneg. apply Forall_map.
    clear -Hts Hvs. induction Hts as [|x l Hx _ IH]; constructor.
    - apply Forall_cons in Hvs as [Hv _].
      pose proof (item_total_at_least_cent x Hv Hx). unfold cent in *. lra.
    - apply IH. by apply Forall_cons in Hvs as [_ ?]. }
  exists row. split; [rewrite Hd; apply lookup_insert_eq|].
  split; [by rewrite HG|].
  intros Hzero. rewrite HS, HB.
  destruct (Qleb _ 0) eqn:E; [|reflexivity].
  apply Qleb_true in E. unfold cent in Hcent. lra.
Qed.

Lemma created_debtor_owes_something_witness :
  exists row,
    debtors Examples.created !! 7 = Some row /\
    (cent <= grand_total row)%Q /\
    ((paymentAmount Examples.form == 0)%Q -> status row = "pending").
Proof.
  apply (created_debtor_owes_something
           [Change (CustomerName "Ada Obi"); Change (CustomerPhone "08012345678");
            AddItem Examples.rice]
           1 7 true true Db.empty "Debtor created successfully!" initialForm).
  vm_compute. reflexivity.
Defined.

(** X8. What a debtor is created with. The row carries as total_paid the
    payment typed in the form (0 when none was typed); its status is paid
    exactly when the typed payment equals the grand total the form holds,
    the number [addItemToBundle] computed, and pending exactly when it is
    smaller. *)
Theorem initial_status userId fd row :
  newDebtor userId fd = inr row ->
  let typed := match f_payment_amount fd with Some a => a | None => 0%Q end in
  (total_paid row == typed)%Q /\
  (status row = "paid" <-> (typed == f_grand_total fd)%Q) /\
  (status row = "pending" <-> (typed < f_grand_total fd)%Q).
Proof.
  intros Hnew typed.
  pose proof (newDebtor_bounds _ _ _ Hnew) as (_ & Hhi & _).
  apply newDebtor_row in Hnew as (_ & HP & HB & HS).
  rewrite HS, HB, HP. unfold paymentAmount in *. fold typed in Hhi. fold typed.
  split; [reflexivity|].
  destruct (Qleb _ 0) eqn:E.
  - apply Qleb_true in E. split; split; try discriminate; try reflexivity; intros; lra.
  - apply Qleb_false in E. split; split; try discriminate; try reflexivity; intros; lra.
Qed.

Lemma initial_status_witness :
  exists row,
    newDebtor 1 Samples.form_paid_in_full = inr row /\
    (total_paid row == 1000 # 1)%Q /\
    (status row = "paid" <-> (1000 # 1 == f_grand_total Samples.form_paid_in_full)%Q) /\
    (status row = "pending" <-> (1000 # 1 < f_grand_total Samples.form_paid_in_full)%Q).
Proof.
  destruct (newDebtor 1 Samples.form_paid_in_full) as [m|row] eqn:Hnew;
    [vm_compute in Hnew; discriminate|].
  exists row. split; [reflexivity|].
  apply (initial_status 1 Samples.form_paid_in_full row Hnew).
Defined.

(** X9. Removing the item that was just added gives back the bundle: the
    items are those before the addition and the grand total is the one
    before it. An item that [itemSchema] refused was never added, and the
    removal, then out of range, changes nothing either. *)
Theorem remove_after_add events c :
  let fd := fill events in
  let fd' := removeItemFromBundle (length (f_items fd)) (addItemToBundle c fd) in
  f_items fd' = f_items fd /\ (f_grand_total fd' == f_grand_total fd)%Q.
Proof.
  intros fd fd'. destruct (fill_bundle_ok events) as [_ Hsum]. fold fd in Hsum.
  assert (Hitems : f_items fd' = f_items fd).
  { subst fd'. unfold removeItemFromBundle, addItemToBundle.
    destruct (itemSchema c) as [[q p]|]; simpl.
    - rewrite delete_middle. apply app_nil_r.
    - clear. induction (f_items fd) as [|x l IH]; simpl; [reflexivity|].
      by rewrite IH. }
  split; [assumption|].
  rewrite Hsum, <- Hitems. subst fd'. unfold removeItemFromBundle. simpl.
  apply reduce_sum_Qsum.
Qed.

Lemma trim_start_all_space s : all_space s = true -> trim_start s = EmptyString.
Proof.
  induction s as [|c s IH]; simpl; [reflexivity|].
  intros H. apply andb_true_iff in H as [-> H]. by apply IH.
Qed.

(** X10. The checks of the customer form are made on the text as typed and
    the row stores the trimmed text: a name of white space only, long enough
    to pass, is stored as the empty name. *)
Theorem blank_name_is_stored_empty userId fd row :
  newDebtor userId fd = inr row ->
  all_space (f_customer_name fd) = true ->
  (2 <= String.length (f_customer_name fd))%nat /\
  customer_name row = EmptyString.
Proof.
  unfold newDebtor, customerSchema, within.
  destruct (2 <=? String.length (f_customer_name fd))%nat eqn:Hlen; simpl;
    [|discriminate].
  destruct (negb _); [discriminate|].
  destruct (_ =? _)%nat; [discriminate|].
  destruct (Qltb (paymentAmount fd) 0); [discriminate|].
  destruct (Qltb (f_grand_total fd) (paymentAmount fd)); [discriminate|].
  intros [= <-] Hspace. simpl. split; [by apply Nat.leb_le|].
  unfold trim. by rewrite trim_start_all_space.
Qed.

Lemma blank_name_is_stored_empty_witness :
  exists row,
    newDebtor 1 (handleCustomerChange (CustomerName "   ") Examples.form) = inr row /\
    (2 <= String.length "   ")%nat /\ customer_name row = EmptyString.
Proof.
  destruct (newDebtor 1 (handleCustomerChange (CustomerName "   ") Examples.form))
    as [m|row] eqn:Hnew; [vm_compute in Hnew; discriminate|].
  exists row. split; [reflexivity|].
  apply (blank_name_is_stored_empty 1
           (handleCustomerChange (CustomerName "   ") Examples.form) row Hnew).
  reflexivity.
Defined.

End CreateDebtorMore.

(** ** Sales: the table, the summary, the stock lookup *)

Section SalesMore.
Import Db SalesPage Shapes Views.

Variable ilike : string -> string -> bool.

Lemma saleSchema_bounds fd q c p :
  saleSchema fd = Some (q, c, p) -> (1 <= q)%Z /\ (cent <= c)%Q /\ (cent <= p)%Q.
Proof.
  unfold saleSchema. destruct (_ && _); [|discriminate].
  destruct (f_quantity fd) as [q'|]; [|discriminate].
  destruct (f_cost_price fd) as [c'|]; [|discriminate].
  destruct (f_selling_price fd) as [p'|]; [|discriminate].
  destruct (1 <=? q')%Z eqn:Hq; simpl; [|discriminate].
  destruct (Qleb cent c') eqn:Hc; simpl; [|discriminate].
  destruct (Qleb cent p') eqn:Hp; [|discriminate].
  intros [= <- <- <-]. apply Qleb_true in Hc, Hp. repeat split; try assumption. lia.
Qed.

(** X11. Every row that [handleSubmit] adds to the sales table has a
    quantity of at least 1, prices of at least 0.01 and the three derived
    amounts; a table of such rows stays one. *)
Theorem sales_rows_stay_wellformed userId fd select_ok update_ok insert_ok st :
  Forall sale_ok (sales st) ->
  Forall sale_ok (sales (handleSubmit ilike userId fd select_ok update_ok insert_ok st).2).
Proof.
  intros Hst.
  destruct (saleSchema fd) as [[[q c] p]|] eqn:Hs;
    [|unfold handleSubmit; rewrite Hs; assumption].
  pose proof (saleSchema_bounds _ _ _ _ Hs) as (Hq & Hc & Hp).
  assert (Hnew : sale_ok (mkSale userId (f_sale_date fd) (f_sale_time fd)
                            (trim (f_product_name fd)) q c p
                            (inject_Z q * c) (inject_Z q * p)
                            (inject_Z q * p - inject_Z q * c)))
    by (repeat split; simpl; try assumption; reflexivity).
  destruct (maybeSingle select_ok
              (select_stock ilike userId (trim (f_product_name fd)) st))
    as [[stock_id stockItem]|] eqn:Hsel.
  - rewrite (handleSubmit_stock_path _ _ _ _ _ _ _ _ _ _ _ _ Hs Hsel).
    destruct (_ <? _)%Z; [assumption|].
    destruct update_ok; [|assumption].
    destruct insert_ok; simpl; [|assumption].
    apply Forall_app. split; [assumption | by constructor].
  - rewrite (handleSubmit_no_stock_path _ _ _ _ _ _ _ _ _ _ Hs Hsel).
    destruct insert_ok; simpl; [|assumption].
    apply Forall_app. split; [assumption | by constructor].
Qed.

Lemma Qsum_profit_and_loss (f : SaleRow -> Q) l :
  (Qsum (map f l)
   == Qsum (map f (List.filter (fun s => Qltb 0 (f s)) l))
      - Qsum (map (fun s => Qabs (f s)) (List.filter (fun s => Qltb (f s) 0) l)))%Q.
Proof.
  induction l as [|x l IH]; simpl; [lra|].
  destruct (Qltb 0 (f x)) eqn:Hpos; destruct (Qltb (f x) 0) eqn:Hneg; simpl;
    rewrite IH.
  - apply Qltb_true in Hpos, Hneg. lra.
  - lra.
  - apply Qltb_true in Hneg. rewrite (Qabs_neg (f x)) by lra. lra.
  - apply Qltb_false in Hpos, Hneg. lra.
Qed.

Lemma Qsum_minus {A} (f g : A -> Q) l :
  (Qsum (map f l) - Qsum (map g l) == Qsum (map (fun x => f x - g x) l))%Q.
Proof. induction l as [|x l IH]; simpl; lra. Qed.

Lemma Qsum_ext_Forall {A} (P : A -> Prop) (f g : A -> Q) l :
  Forall P l -> (forall x, P x -> (f x == g x)%Q) ->
  (Qsum (map f l) == Qsum (map g l))%Q.
Proof.
  intros Hl Hfg. induction Hl as [|x l Hx _ IH]; simpl; [lra|].
  rewrite (Hfg x Hx), IH. lra.
Qed.

(** X12. For sales rows as [handleSubmit] writes them, the summary of the
    sales page is consistent: the net result (revenue minus cost) equals
    total profit minus total loss, neither of which is negative, and the
    total revenue is positive as soon as there is a sale. *)
Theorem summary_is_consistent (sales : list SaleRow) :
  Forall sale_ok sales ->
  let summary := calculateSummary sales in
  (netResult summary == totalProfit summary - totalLoss summary)%Q /\
  (0 <= totalProfit summary)%Q /\ (0 <= totalLoss summary)%Q /\
  (sales <> [] -> (0 < totalRevenue summary)%Q).
Proof.
  intros Hok summary. subst summary. unfold calculateSummary. simpl.
  rewrite !reduce_sum_Qsum. repeat split.
  - rewrite Qsum_minus.
    rewrite (Qsum_ext_Forall sale_ok _ sale_profit_loss sales Hok).
    + apply Qsum_profit_and_loss.
    + intros x (_ & _ & _ & _ & _ & Hpl). by rewrite Hpl.
  - apply Qsum_nonneg. apply Forall_map. apply Forall_forall.
    intros x Hx. apply list_elem_of_In, filter_In in Hx as [_ Hx].
    apply Qltb_true in Hx. lra.
  - apply Qsum_nonneg. apply Forall_map. apply Forall_forall.
    intros x _. apply Qabs_nonneg.
  - intros Hne. destruct Hok as [|x l Hx Hl]; [done|]. simpl.
    assert ((0 <= Qsum (map sale_revenue l))%Q).
    { apply Qsum_nonneg. apply Forall_map.
      eapply Forall_impl; [exact Hl|]. intros y (Hq & _ & Hp & _ & Hr & _).
      simpl. rewrite Hr. apply Qmult_le_0_compat.
      - change 0%Q with (inject_Z 0). rewrite <- Zle_Qle. lia.
      - unfold cent in Hp. lra. }
    destruct Hx as (Hq & _ & Hp & _ & Hr & _). rewrite Hr.
    assert ((0 < inject_Z (sale_quantity x) * sale_selling_price x)%Q); [|lra].
    apply Qmult_lt_0_compat.
    + change 0%Q with (inject_Z 0). rewrite <- Zlt_Qlt. lia.
    + unfold cent in Hp. lra.
Qed.

(** Two rows in the answer, no single row. *)
Lemma maybeSingle_two_rows select_ok userId name st k1 k2 r1 r2 :
  k1 <> k2 ->
  stock st !! k1 = Some r1 -> stock st !! k2 = Some r2 ->
  stock_user_id r1 = userId -> stock_user_id r2 = userId ->
  ilike name (stock_product_name r1) = true ->
  ilike name (stock_product_name r2) = true ->
  maybeSingle select_ok (select_stock ilike userId name st) = None.
Proof.
  intros Hne H1 H2 Hu1 Hu2 Hm1 Hm2. unfold maybeSingle.
  destruct select_ok; [|reflexivity].
  assert (Hin : forall k r, stock st !! k = Some r -> stock_user_id r = userId ->
                  ilike name (stock_product_name r) = true ->
                  (k, r) ∈ select_stock ilike userId name st).
  { intros k r Hk Hu Hm. unfold select_stock.
    apply elem_of_map_to_list, map_lookup_filter_Some. auto. }
  pose proof (Hin k1 r1 H1 Hu1 Hm1) as Hin1.
  pose proof (Hin k2 r2 H2 Hu2 Hm2) as Hin2.
  destruct (select_stock ilike userId name st) as [|x [|y l]]; try reflexivity.
  apply list_elem_of_singleton in Hin1, Hin2. congruence.
Qed.

(** Without a single row from the lookup, the sale goes the unchecked way. *)
Lemma handleSubmit_without_single_row
    userId fd q c p select_ok update_ok insert_ok st :
  saleSchema fd = Some (q, c, p) ->
  (select_ok = false \/
   exists k1 k2 r1 r2,
     k1 <> k2 /\ stock st !! k1 = Some r1 /\ stock st !! k2 = Some r2 /\
     stock_user_id r1 = userId /\ stock_user_id r2 = userId /\
     ilike (trim (f_product_name fd)) (stock_product_name r1) = true /\
     ilike (trim (f_product_name fd)) (stock_product_name r2) = true) ->
  let result := handleSubmit ilike userId fd select_ok update_ok insert_ok st in
  stock result.2 = stock st /\
  (insert_ok = true ->
     exists sale,
       result = (Done "Sale recorded successfully!",
                 set_sales (sales st ++ [sale]) st) /\
       sale_quantity sale = q).
Proof.
  intros Hs Hcase result. subst result.
  rewrite (handleSubmit_no_stock_path _ _ _ q c p _ _ _ _ Hs).
  - destruct insert_ok; simpl; split; try reflexivity; try discriminate.
    intros _. eexists. split; reflexivity.
  - destruct Hcase as [->|(k1 & k2 & r1 & r2 & Hne & H1 & H2 & Hu1 & Hu2 & Hm1 & Hm2)];
      [reflexivity|].
    by apply (maybeSingle_two_rows _ _ _ _ k1 k2 r1 r2).
Qed.

(** X13. The stock check is made only when the lookup gives exactly one row.
    When the stock query fails, or when two stock rows of the user match the
    product name, the sale is recorded for any quantity the form accepts and
    the stock table is left as it was. *)
Theorem sale_unchecked_without_single_row
    userId fd q c p select_ok update_ok insert_ok st :
  saleSchema fd = Some (q, c, p) ->
  (select_ok = false \/
   exists k1 k2 r1 r2,
     k1 <> k2 /\ stock st !! k1 = Some r1 /\ stock st !! k2 = Some r2 /\
     stock_user_id r1 = userId /\ stock_user_id r2 = userId /\
     ilike (trim (f_product_name fd)) (stock_product_name r1) = true /\
     ilike (trim (f_product_name fd)) (stock_product_name r2) = true) ->
  let result := handleSubmit ilike userId fd select_ok update_ok insert_ok st in
  stock result.2 = stock st /\
  (insert_ok = true ->
     exists sale,
       result = (Done "Sale recorded successfully!",
                 set_sales (sales st ++ [sale]) st) /\
       sale_quantity sale = q).
Proof.
  intros Hs Hcase. destruct Hcase as [Hfail|Htwo].
  - apply (handleSubmit_without_single_row _ _ q c p); [assumption | by left].
  - apply (handleSubmit_without_single_row _ _ q c p); [assumption | by right].
Qed.

(** X14. A sale whose stock deduction went through and whose insert into
    the sales table failed ends with an error, no sale row, and the stock
    row deducted all the same. *)
Theorem failed_sale_keeps_deduction userId fd q c p stock_id stockItem select_ok st :
  saleSchema fd = Some (q, c, p) ->
  maybeSingle select_ok (select_stock ilike userId (trim (f_product_name fd)) st)
    = Some (stock_id, stockItem) ->
  (q <= stock_quantity stockItem)%Z ->
  let result := handleSubmit ilike userId fd select_ok true false st in
  result.1 = Failed "Error adding sale" /\
  sales result.2 = sales st /\
  exists r, stock result.2 !! stock_id = Some r /\
            stock_quantity r = (stock_quantity stockItem - q)%Z /\
            stock_total_sold r = (stock_total_sold stockItem + q)%Z.
Proof.
  intros Hs Hsel Hq result. subst result.
  pose proof (maybeSingle_select_stock _ _ _ _ _ _ _ Hsel) as (Hrow & _ & _).
  rewrite (handleSubmit_stock_path _ _ _ _ _ _ _ _ _ _ _ _ Hs Hsel).
  assert (Hlt : (stock_quantity stockItem <? q)%Z = false) by (apply Z.ltb_ge; lia).
  rewrite Hlt. simpl. repeat split.
  exists (deduct q stockItem stockItem). rewrite lookup_alter_eq, Hrow. auto.
Qed.

End SalesMore.

Section SalesMoreWitnesses.
Import Db SalesPage.

Lemma sales_rows_stay_wellformed_witness :
  Forall Shapes.sale_ok
    (sales (handleSubmit Examples.same_letters 1 (Examples.sale_of "rice" 3)
              true true true Examples.shop).2).
Proof.
  apply (sales_rows_stay_wellformed Examples.same_letters 1
           (Examples.sale_of "rice" 3) true true true Examples.shop).
  constructor.
Defined.

Lemma summary_is_consistent_witness :
  let summary :=
    Views.calculateSummary
      (sales (handleSubmit Examples.same_letters 1 (Examples.sale_of "rice" 3)
                true true true Examples.shop).2) in
  (Views.netResult summary == Views.totalProfit summary - Views.totalLoss summary)%Q /\
  (0 <= Views.totalProfit summary)%Q /\ (0 <= Views.totalLoss summary)%Q /\
  (sales (handleSubmit Examples.same_letters 1 (Examples.sale_of "rice" 3)
            true true true Examples.shop).2 <> [] ->
   (0 < Views.totalRevenue summary)%Q).
Proof.
  apply (summary_is_consistent
           (sales (handleSubmit Examples.same_letters 1 (Examples.sale_of "rice" 3)
                     true true true Examples.shop).2)).
  vm_compute. repeat constructor; discriminate.
Defined.


Lemma sale_unchecked_without_single_row_witness :
  let result := handleSubmit Examples.same_letters 1 (Examples.sale_of "Rice" 100)
                  true true true Examples.shop_twice in
  stock result.2 = stock Examples.shop_twice /\
  (true = true ->
     exists sale,
       result = (Done "Sale recorded successfully!",
                 set_sales (sales Examples.shop_twice ++ [sale]) Examples.shop_twice) /\
       sale_quantity sale = 100%Z).
Proof.
  apply (sale_unchecked_without_single_row Examples.same_letters 1
           (Examples.sale_of "Rice" 100) 100%Z (10 # 1) (15 # 1)
           true true true Examples.shop_twice).
  - vm_compute. reflexivity.
  - right. exists 3%nat, 4%nat, (mkStock 1 "Rice" 5 (10 # 1) 2),
      (mkStock 1 "rice" 8 (10 # 1) 0).
    repeat split; try (vm_compute; reflexivity). discriminate.
Defined.

Lemma failed_sale_keeps_deduction_witness :
  let result := handleSubmit Examples.same_letters 1 (Examples.sale_of "rice" 3)
                  true true false Examples.shop in
  result.1 = Failed "Error adding sale" /\
  sales result.2 = sales Examples.shop /\
  exists r, stock result.2 !! 3%nat = Some r /\
            stock_quantity r = (5 - 3)%Z /\ stock_total_sold r = (2 + 3)%Z.
Proof.
  apply (failed_sale_keeps_deduction Examples.same_letters 1
           (Examples.sale_of "rice" 3) 3%Z (10 # 1) (15 # 1) 3%nat
           (mkStock 1 "Rice" 5 (10 # 1) 2) true Examples.shop).
  - vm_compute. reflexivity.
  - vm_compute. reflexivity.
  - vm_compute. discriminate.
Defined.

End SalesMoreWitnesses.

(** ** Stock: which rows exist, restocking, alerts *)

Section StockMore.
Import Db Views Deletes.

Lemma set_stock_same st : set_stock (stock st) st = st.
Proof. by destruct st. Qed.

(** X15. Stock rows are created by the stock form and by nothing else:
    recording a sale and restocking leave the set of stock ids as it was,
    and adding a stock item keeps every row that was there. *)
Theorem stock_ids_are_stable st :
  (forall ilike userId fd select_ok update_ok insert_ok,
      dom (stock (SalesPage.handleSubmit ilike userId fd
                    select_ok update_ok insert_ok st).2) = dom (stock st)) /\
  (forall restockItem restockQuantity update_ok,
      dom (stock (StockManagement.handleRestock restockItem restockQuantity
                    update_ok st).2) = dom (stock st)) /\
  (forall userId fd reply,
      stock st ⊆ stock (StockManagement.handleSubmit userId fd reply st).2).
Proof.
  split; [|split].
  - intros ilike userId fd select_ok update_ok insert_ok.
    destruct (SalesPage.saleSchema fd) as [[[q c] p]|] eqn:Hs;
      [|unfold SalesPage.handleSubmit; rewrite Hs; reflexivity].
    destruct (maybeSingle select_ok
                (SalesPage.select_stock ilike userId
                   (trim (SalesPage.f_product_name fd)) st))
      as [[stock_id stockItem]|] eqn:Hsel.
    + rewrite (handleSubmit_stock_path _ _ _ _ _ _ _ _ _ _ _ _ Hs Hsel).
      destruct (_ <? _)%Z; [reflexivity|].
      destruct update_ok; [|reflexivity].
      destruct insert_ok; simpl; apply dom_alter_L.
    + rewrite (handleSubmit_no_stock_path _ _ _ _ _ _ _ _ _ _ Hs Hsel).
      destruct insert_ok; reflexivity.
  - intros restockItem field update_ok. unfold StockManagement.handleRestock.
    destruct restockItem as [[k item]|]; [|reflexivity].
    destruct field as [|[add|]]; try reflexivity.
    destruct (add <? 1)%Z; [reflexivity|].
    destruct update_ok; simpl; [apply dom_alter_L | reflexivity].
  - intros userId fd reply. unfold StockManagement.handleSubmit.
    destruct (StockManagement.stockSchema fd) as [[q c]|]; [|reflexivity].
    unfold insert_row. destruct reply as [|k]; [reflexivity|].
    destruct (stock st !! k) eqn:Hk; [reflexivity|].
    simpl. by apply insert_subseteq.
Qed.

(** X16. Restocking an item that is no longer in the stock table (it was
    deleted after the list was fetched) ends with the success toast and
    changes nothing: the update matches no row and the row is not created
    again. *)
Theorem restock_of_a_deleted_item item_id item add st :
  stock st !! item_id = None -> (1 <= add)%Z ->
  exists title,
    StockManagement.handleRestock (Some (item_id, item))
      (StockManagement.Typed (Some add)) true st = (Done title, st).
Proof.
  intros Hgone Hadd. unfold StockManagement.handleRestock.
  assert (Hlt : (add <? 1)%Z = false) by (apply Z.ltb_ge; lia).
  rewrite Hlt. simpl. eexists. f_equal.
  rewrite alter_id; [apply set_stock_same|].
  intros x Hx. congruence.
Qed.

Lemma restock_of_a_deleted_item_witness :
  exists title,
    StockManagement.handleRestock (Some (3%nat, mkStock 1 "Rice" 5 (10 # 1) 2))
      (StockManagement.Typed (Some 20%Z)) true
      (handleDelete true 3 true Examples.shop).2
      = (Done title, (handleDelete true 3 true Examples.shop).2).
Proof.
  apply (restock_of_a_deleted_item 3 (mkStock 1 "Rice" 5 (10 # 1) 2) 20
           (handleDelete true 3 true Examples.shop).2).
  - vm_compute. reflexivity.
  - lia.
Defined.

(** What a restock that goes through writes. *)
Lemma handleRestock_done item_id item add st row :
  stock st !! item_id = Some row -> (1 <= add)%Z ->
  exists title st',
    StockManagement.handleRestock (Some (item_id, item))
      (StockManagement.Typed (Some add)) true st = (Done title, st') /\
    stock st' !! item_id
      = Some (StockManagement.set_quantity (stock_quantity item + add) row) /\
    (forall k, k <> item_id -> stock st' !! k = stock st !! k) /\
    sales st' = sales st.
Proof.
  intros Hrow Hadd. unfold StockManagement.handleRestock.
  assert (Hlt : (add <? 1)%Z = false) by (apply Z.ltb_ge; lia).
  rewrite Hlt. simpl. do 2 eexists. split; [reflexivity|]. simpl.
  split; [by rewrite lookup_alter_eq, Hrow|].
  split; [|reflexivity]. intros k Hk. by rewrite lookup_alter_ne.
Qed.

(** X17. Restocking writes the quantity of the fetched copy plus the amount
    added: the quantity in the table plays no part. After a sale of [q]
    units, a restock of [add] units from a copy fetched before the sale
    leaves quantity [s + add], the deduction of the sale being lost, while
    total_sold keeps the [q] units; from a copy fetched after the sale it
    leaves [s - q + add]. *)
Theorem restock_after_a_sale
    ilike userId fd q c p stock_id stockItem select_ok add st :
  SalesPage.saleSchema fd = Some (q, c, p) ->
  maybeSingle select_ok
    (SalesPage.select_stock ilike userId (trim (SalesPage.f_product_name fd)) st)
    = Some (stock_id, stockItem) ->
  (q <= stock_quantity stockItem)%Z -> (1 <= add)%Z ->
  let sold := (SalesPage.handleSubmit ilike userId fd select_ok true true st).2 in
  let restock copy :=
    (StockManagement.handleRestock (Some (stock_id, copy))
       (StockManagement.Typed (Some add)) true sold).2 in
  (exists r, stock (restock stockItem) !! stock_id = Some r /\
             stock_quantity r = (stock_quantity stockItem + add)%Z /\
             stock_total_sold r = (stock_total_sold stockItem + q)%Z) /\
  (forall copy, stock sold !! stock_id = Some copy ->
     exists r, stock (restock copy) !! stock_id = Some r /\
               stock_quantity r = (stock_quantity stockItem - q + add)%Z /\
               stock_total_sold r = (stock_total_sold stockItem + q)%Z).
Proof.
  intros Hs Hsel Hq Hadd sold restock.
  pose proof (maybeSingle_select_stock _ _ _ _ _ _ _ Hsel) as (Hrow & _ & _).
  assert (Hsold : stock sold !! stock_id
                  = Some (SalesPage.deduct q stockItem stockItem)).
  { subst sold. rewrite (handleSubmit_stock_path _ _ _ _ _ _ _ _ _ _ _ _ Hs Hsel).
    assert (Hlt : (stock_quantity stockItem <? q)%Z = false) by (apply Z.ltb_ge; lia).
    rewrite Hlt. simpl. by rewrite lookup_alter_eq, Hrow. }
  split.
  - destruct (handleRestock_done stock_id stockItem add sold _ Hsold Hadd)
      as (title & st' & Hrun & Hrow' & _).
    subst restock. cbv beta. rewrite Hrun. eexists. split; [exact Hrow'|].
    simpl. auto.
  - intros copy Hcopy. rewrite Hsold in Hcopy. injection Hcopy as <-.
    destruct (handleRestock_done stock_id (SalesPage.deduct q stockItem stockItem)
                add sold _ Hsold Hadd) as (title & st' & Hrun & Hrow' & _).
    subst restock. cbv beta. rewrite Hrun. eexists. split; [exact Hrow'|].
    simpl. auto.
Qed.

Lemma restock_after_a_sale_witness :
  let sold := (SalesPage.handleSubmit Examples.same_letters 1
                 (Examples.sale_of "rice" 3) true true true Examples.shop).2 in
  let restock copy :=
    (StockManagement.handleRestock (Some (3%nat, copy))
       (StockManagement.Typed (Some 10%Z)) true sold).2 in
  (exists r, stock (restock (mkStock 1 "Rice" 5 (10 # 1) 2)) !! 3%nat = Some r /\
             stock_quantity r = (5 + 10)%Z /\ stock_total_sold r = (2 + 3)%Z) /\
  (forall copy, stock sold !! 3%nat = Some copy ->
     exists r, stock (restock copy) !! 3%nat = Some r /\
               stock_quantity r = (5 - 3 + 10)%Z /\ stock_total_sold r = (2 + 3)%Z).
Proof.
  apply (restock_after_a_sale Examples.same_letters 1 (Examples.sale_of "rice" 3)
           3%Z (10 # 1) (15 # 1) 3%nat (mkStock 1 "Rice" 5 (10 # 1) 2) true 10%Z
           Examples.shop).
  - vm_compute. reflexivity.
  - vm_compute. reflexivity.
  - vm_compute. discriminate.
  - lia.
Defined.

(** X18. The stock alerts, for any text typed into the threshold field: the
    stored threshold is at least 1; no item is in both lists; and the alert
    card is shown exactly when some fetched item has a quantity between 0
    and the threshold. Items with a negative quantity are in neither list. *)
Theorem stock_alerts parsed (stock : list (Id * StockRow)) :
  let lowStockThreshold := setLowStockThreshold parsed in
  (1 <= lowStockThreshold)%Z /\
  (forall item, In item (lowStockItems lowStockThreshold stock) ->
                ~ In item (outOfStockItems stock)) /\
  (forall item, In item (lowStockItems lowStockThreshold stock)
                \/ In item (outOfStockItems stock)
                <-> In item stock /\
                    (0 <= stock_quantity item.2 <= lowStockThreshold)%Z) /\
  (alerts_shown lowStockThreshold stock = true
   <-> exists item, In item stock /\
                    (0 <= stock_quantity item.2 <= lowStockThreshold)%Z).
Proof.
  intros thr.
  assert (Hthr : (1 <= thr)%Z) by (subst thr; unfold setLowStockThreshold; lia).
  assert (Hcover : forall item,
             In item (lowStockItems thr stock) \/ In item (outOfStockItems stock)
             <-> In item stock /\ (0 <= stock_quantity item.2 <= thr)%Z).
  { intros item. unfold lowStockItems, outOfStockItems. rewrite !filter_In.
    split.
    - intros [[Hin H]|[Hin H]]; (split; [assumption|]); lia.
    - intros [Hin H]. destruct (Z.eq_dec (stock_quantity item.2) 0%Z) as [E|E].
      + right. split; [assumption | lia].
      + left. split; [assumption | lia]. }
  split; [assumption|]. split; [|split; [assumption|]].
  - intros item. unfold lowStockItems, outOfStockItems. rewrite !filter_In.
    intros [_ H] [_ H']. lia.
  - unfold alerts_shown. rewrite orb_true_iff, !Nat.ltb_lt. split.
    + intros [H|H].
      * destruct (lowStockItems thr stock) as [|item l] eqn:E; [simpl in H; lia|].
        exists item. apply Hcover. left. by left.
      * destruct (outOfStockItems stock) as [|item l] eqn:E; [simpl in H; lia|].
        exists item. apply Hcover. right. by left.
    + intros [item Hitem]. apply Hcover in Hitem as [Hin|Hin].
      * left. destruct (lowStockItems thr stock); [done | simpl; lia].
      * right. destruct (outOfStockItems stock); [done | simpl; lia].
Qed.

End StockMore.

(** ** Deleting a debtor; the statistics of the debt page *)

Section DebtorsMore.
Import Db DebtPage Views Deletes.

Lemma filter_keeps_all {A} (f : A -> bool) l :
  Forall (fun x => f x = true) l -> List.filter f l = l.
Proof. induction 1 as [|x l Hx _ IH]; simpl; [reflexivity | by rewrite Hx, IH]. Qed.

Lemma filter_keeps_none {A} (f : A -> bool) l :
  Forall (fun x => f x = false) l -> List.filter f l = [].
Proof. induction 1 as [|x l Hx _ IH]; simpl; [reflexivity | by rewrite Hx, IH]. Qed.

Lemma other_id_true (k id : Id) : k <> id -> negb (k =? id)%nat = true.
Proof. intros H. apply negb_true_iff, Nat.eqb_neq, H. Qed.

(** Deleting a debtor takes its debt items and its payments with it and
    nothing else: afterwards no row refers to the debtor, the rows of the
    other debtors are all still there, and stock and sales are untouched. *)
Lemma deleteDebtor_cascades id st :
  let st' := (deleteDebtor true id true st).2 in
  debtors st' !! id = None /\
  unreferenced id st' /\
  (forall k, k <> id -> debtors st' !! k = debtors st !! k) /\
  (forall r, In r (debt_items st') <-> In r (debt_items st) /\ item_debtor_id r <> id) /\
  (forall r, In r (payments st') <-> In r (payments st) /\ payment_debtor_id r <> id) /\
  stock st' = stock st /\ sales st' = sales st.
Proof.
  simpl. split; [apply lookup_delete_eq|].
  assert (Hi : forall r, In r (List.filter (fun r => negb (item_debtor_id r =? id)%nat)
                                 (debt_items st))
                         <-> In r (debt_items st) /\ item_debtor_id r <> id).
  { intros r. rewrite filter_In, negb_true_iff, Nat.eqb_neq. reflexivity. }
  assert (Hp : forall r, In r (List.filter (fun r => negb (payment_debtor_id r =? id)%nat)
                                 (payments st))
                         <-> In r (payments st) /\ payment_debtor_id r <> id).
  { intros r. rewrite filter_In, negb_true_iff, Nat.eqb_neq. reflexivity. }
  split; [split|].
  - apply Forall_forall. intros r Hr. apply list_elem_of_In, Hi in Hr. tauto.
  - apply Forall_forall. intros r Hr. apply list_elem_of_In, Hp in Hr. tauto.
  - split; [intros k Hk; by apply lookup_delete_ne|]. auto.
Qed.

(** X19. Deleting the debtor undoes [createDebtor], whatever stage it
    reached: from a store in which the new id is free and referred to by no
    row, creation (refused, failed half-way or completed) followed by the
    deletion of that id gives back the store. *)
Theorem delete_undoes_create userId fd debtor_id items_ok payment_ok st :
  debtors st !! debtor_id = None ->
  unreferenced debtor_id st ->
  (deleteDebtor true debtor_id true
     (createDebtor userId fd (Inserted debtor_id) items_ok payment_ok st).2).2 = st.
Proof.
  intros Hfree [Hitems Hpays].
  assert (Hi : List.filter (fun r => negb (item_debtor_id r =? debtor_id)%nat)
                 (debt_items st) = debt_items st).
  { apply filter_keeps_all. eapply Forall_impl; [exact Hitems|].
    intros r. apply other_id_true. }
  assert (Hp : List.filter (fun r => negb (payment_debtor_id r =? debtor_id)%nat)
                 (payments st) = payments st).
  { apply filter_keeps_all. eapply Forall_impl; [exact Hpays|].
    intros r. apply other_id_true. }
  assert (Hnew : List.filter (fun r => negb (item_debtor_id r =? debtor_id)%nat)
                   (itemsToInsert debtor_id fd) = []).
  { apply filter_keeps_none. unfold itemsToInsert. apply Forall_map.
    apply Forall_forall. intros x _. simpl. by rewrite Nat.eqb_refl. }
  assert (Hsame : (deleteDebtor true debtor_id true st).2 = st).
  { unfold deleteDebtor. simpl. rewrite Hi, Hp, delete_id by assumption.
    by destruct st. }
  unfold createDebtor.
  destruct (newDebtor userId fd) as [m|row]; [exact Hsame|].
  simpl. rewrite Hfree.
  destruct items_ok; simpl.
  - destruct (Qltb 0 (paymentAmount fd)); [destruct payment_ok|]; simpl;
      unfold deleteDebtor; simpl;
      rewrite ?List.filter_app, Hi, Hp, Hnew, ?app_nil_r, delete_insert_id
        by assumption;
      simpl; rewrite ?Nat.eqb_refl, ?app_nil_r; simpl; by destruct st.
  - unfold deleteDebtor. simpl. rewrite Hi, Hp, delete_insert_id by assumption.
    by destruct st.
Qed.

Lemma delete_undoes_create_witness :
  (deleteDebtor true 7 true
     (createDebtor 1 Examples.form_paying (Inserted 7) true true Examples.shop).2).2
  = Examples.shop.
Proof.
  apply (delete_undoes_create 1 Examples.form_paying 7 true true Examples.shop).
  - reflexivity.
  - split; constructor.
Defined.

Lemma pending_iff_positive d :
  status_ok d -> String.eqb (status d) "pending" = Qltb 0 (current_balance d).
Proof.
  unfold status_ok, Qltb. intros ->.
  change (Qle_bool (current_balance d) 0) with (Qleb (current_balance d) 0).
  by destruct (Qleb (current_balance d) 0).
Qed.

(** X20. The statistics of the debt page, over debtors whose status agrees
    with their balance and whose balance is not negative: the total
    outstanding is the sum of the balances of the pending debtors alone, and
    the number of active debtors is the number of debtors that still owe
    something. *)
Theorem stats_count_pending_only thisMonth (listed : list (DebtorRow * nat)) :
  Forall (fun d => status_ok d.1 /\ (0 <= current_balance d.1)%Q) listed ->
  let stats := calculateStats thisMonth listed in
  (totalOutstanding stats
   == Qsum (map (fun d => current_balance d.1)
              (List.filter (fun d => String.eqb (status d.1) "pending") listed)))%Q /\
  activeDebtors stats
  = length (List.filter (fun d => Qltb 0 (current_balance d.1)) listed).
Proof.
  intros Hall stats. subst stats. unfold calculateStats. simpl.
  rewrite reduce_sum_Qsum. split.
  - induction Hall as [|d l [Hs Hb] _ IH]; simpl; [lra|].
    rewrite (pending_iff_positive _ Hs).
    destruct (Qltb 0 (current_balance d.1)) eqn:E; simpl; rewrite IH; [lra|].
    apply Qltb_false in E. lra.
  - f_equal. induction Hall as [|d l [Hs Hb] _ IH]; simpl; [reflexivity|].
    rewrite (pending_iff_positive _ Hs), IH. reflexivity.
Qed.

End DebtorsMore.

(** ** Exports read back *)

Section ExportsMore.
Import Db ExportCsv Exports.

(** X21. A file exported from a non-empty list of records with column names
    that need no quoting reads back as one header record, the column names,
    followed by exactly one record per row. *)
Theorem export_header_and_size inherited filename row0 rest headers :
  let keys := columns row0 headers in
  keys <> [] -> Forall plain keys ->
  exists file content,
    exportToCsv inherited filename (row0 :: rest) headers = Some (file, content) /\
    parseCsv content !! 0%nat = Some keys /\
    length (parseCsv content) = S (length (row0 :: rest)).
Proof.
  intros keys Hne Hplain.
  destruct (parse_export inherited filename row0 rest headers Hne Hplain)
    as (file & content & Hexport & Hparse).
  exists file, content. split; [assumption|]. rewrite Hparse.
  split; [reflexivity|]. simpl. by rewrite length_map.
Qed.

Lemma export_header_and_size_witness :
  let keys := ["Customer Name"; "Note"] in
  exists file content,
    exportToCsv Samples.object_prototype "debtors"
      [[("Customer Name", Other "Obi, Ada"); ("Note", Other Examples.note)];
       [("Customer Name", Other "Eze"); ("Note", Other Examples.address)]] None
      = Some (file, content) /\
    parseCsv content !! 0%nat = Some keys /\
    length (parseCsv content) = 3%nat.
Proof.
  apply (export_header_and_size Samples.object_prototype "debtors"
           [("Customer Name", Other "Obi, Ada"); ("Note", Other Examples.note)]
           [[("Customer Name", Other "Eze"); ("Note", Other Examples.address)]]
           None).
  - discriminate.
  - repeat constructor.
Defined.

(** X22. Without explicit headers the columns are the keys of the first
    record and of no other: two lists of records with the same first record,
    whose later records give the same [row[key]] for each of those keys,
    give the same file, whatever else the later records hold. *)
Theorem export_uses_keys_of_first_row inherited filename row0 (rest rest' : list Row) :
  Forall2 (fun r r' =>
             forall key, In key (keys_of row0) ->
                         get inherited key r = get inherited key r')
          rest rest' ->
  exportToCsv inherited filename (row0 :: rest) None
    = exportToCsv inherited filename (row0 :: rest') None.
Proof.
  intros Hagree. unfold exportToCsv. simpl columns. do 4 f_equal. simpl. f_equal.
  induction Hagree as [|r r' l l' Hr _ IH]; simpl; [reflexivity|].
  rewrite IH. f_equal. unfold line. f_equal.
  apply map_ext_in. intros key Hkey. by rewrite (Hr key Hkey).
Qed.

Lemma export_uses_keys_of_first_row_witness :
  exportToCsv Samples.object_prototype "debtors"
    [[("Customer Name", Other "Obi, Ada")];
     [("Customer Name", Other "Eze"); ("Note", Other Examples.note)]] None
  = exportToCsv Samples.object_prototype "debtors"
      [[("Customer Name", Other "Obi, Ada")]; [("Customer Name", Other "Eze")]] None.
Proof.
  apply (export_uses_keys_of_first_row Samples.object_prototype "debtors"
           [("Customer Name", Other "Obi, Ada")]
           [[("Customer Name", Other "Eze"); ("Note", Other Examples.note)]]
           [[("Customer Name", Other "Eze")]]).
  constructor; [|constructor].
  intros key [<-|[]]. reflexivity.
Defined.

(** X23. The export of the sales page: with no sales nothing is downloaded;
    otherwise the file is named after the date range and reads back as the
    nine column names followed by one record per sale with the date, the
    time, the product name and the six numbers of the sale, whatever
    characters the product name holds. *)
Theorem exported_sales_read_back String_number inherited sales startDate endDate :
  exportSales String_number inherited [] startDate endDate
    = (Invalid "No sales to export", None) /\
  (sales <> [] ->
   exists content,
     exportSales String_number inherited sales startDate endDate
       = (Done "Sales exported successfully!",
          Some (String.append
                  (String.append "sales_"
                     (String.append startDate (String.append "_to_" endDate)))
                  ".csv",
                content)) /\
     parseCsv content = salesHeader :: map (exportedFields String_number) sales).
Proof.
  split; [reflexivity|]. intros Hne.
  destruct sales as [|sale rest]; [done|].
  destruct (parse_export inherited
              (String.append "sales_"
                 (String.append startDate (String.append "_to_" endDate)))
              (exportRecord String_number sale)
              (map (exportRecord String_number) rest) None)
    as (file & content & Hexport & Hparse).
  { discriminate. }
  { repeat constructor. }
  exists content. split.
  - unfold exportSales. change (map ?f (sale :: rest)) with (f sale :: map f rest).
    rewrite Hexport. unfold exportToCsv in Hexport. by injection Hexport as <- _.
  - rewrite Hparse. f_equal.
    change (exportRecord String_number sale :: map (exportRecord String_number) rest)
      with (map (exportRecord String_number) (sale :: rest)).
    rewrite map_map. apply map_ext. intros x. reflexivity.
Qed.

End ExportsMore.

(** ** The weekly reminder job *)

Section WeeklyRemindersMore.
Import Db WeeklyReminders.

(** The loop, from any intermediate state. *)
Lemma remind_loop send (l : list (Id * DebtorRow)) results mailed results' mailed' :
  fold_left (remind send) l (results, mailed) = (results', mailed') ->
  total results' = total results /\
  (sent results' + length (errors results') + length mailed
   = sent results + length (errors results) + length mailed')%nat /\
  (length mailed' = length mailed + length (List.filter has_address l))%nat /\
  (failed results' + length (errors results)
   = failed results + length (errors results')
     + length (List.filter (fun d => has_address d && null_body (send d.1)) l))%nat /\
  (length (errors results)
   + length (List.filter (fun d => has_address d && null_body (send d.1)) l)
   <= length (errors results'))%nat /\
  (forall e, In e mailed' ->
     In e mailed \/ exists d, In d l /\ customer_email d.2 = Some e).
Proof.
  revert results mailed. induction l as [|d l IH]; intros results mailed.
  - simpl. intros [= <- <-]. repeat split; auto; lia.
  - intros Hrest.
    change (fold_left (remind send) l (remind send (results, mailed) d)
            = (results', mailed')) in Hrest.
    destruct (remind send (results, mailed) d) as [r1 m1] eqn:Hstep.
    apply IH in Hrest as (Ht & Hc & Hl & Hf & He & Hin).
    assert (Hm : forall e, In e m1 -> In e mailed \/ customer_email d.2 = Some e).
    { intros e He'. unfold remind in Hstep.
      destruct (customer_email d.2) as [email|] eqn:Hemail;
        [|injection Hstep as _ <-; by left].
      destruct (String.eqb email EmptyString); [injection Hstep as _ <-; by left|].
      assert (Hm1 : In e (mailed ++ [email]))
        by (destruct (send d.1); injection Hstep as _ <-; assumption).
      apply in_app_or in Hm1 as [?|[<-|[]]]; [by left | by right]. }
    assert (Hmailed : forall e, In e mailed' ->
              In e mailed \/ exists d0, In d0 (d :: l) /\ customer_email d0.2 = Some e).
    { intros e He'. destruct (Hin e He') as [Hm1|(d' & ? & ?)].
      - destruct (Hm e Hm1) as [?|?]; [by left|].
        right. exists d. split; [by left | assumption].
      - right. exists d'. split; [by right | assumption]. }
    clear Hin Hm.
    set (addressed := length (List.filter has_address l)) in *.
    set (nulls :=
           length (List.filter (fun d => has_address d && null_body (send d.1)) l)) in *.
    assert (Hcount :
      length (List.filter has_address (d :: l))
      = ((if has_address d then 1 else 0) + addressed)%nat /\
      length (List.filter (fun d => has_address d && null_body (send d.1)) (d :: l))
      = ((if has_address d && null_body (send d.1) then 1 else 0) + nulls)%nat).
    { cbn [List.filter]. split.
      - by destruct (has_address d).
      - by destruct (has_address d && null_body (send d.1)). }
    destruct Hcount as [-> ->].
    unfold remind in Hstep.
    assert (Hhas : has_address d
                   = match customer_email d.2 with
                     | Some email => negb (String.eqb email EmptyString)
                     | None => false
                     end) by reflexivity.
    rewrite Hhas. clear Hhas.
    destruct (customer_email d.2) as [email|];
      [|injection Hstep as <- <-; simpl; repeat split; auto; lia].
    destruct (String.eqb email EmptyString);
      [injection Hstep as <- <-; simpl; repeat split; auto; lia|].
    destruct (send d.1); injection Hstep as <- <-; simpl in *;
      rewrite ?length_app in *; simpl in *;
      (repeat split; try assumption; lia).
Qed.

(** X24. When the job runs (a key is configured and the debtors query
    succeeds) it always answers 200 with success, also when the mail service
    refused every mail. The results count every selected debtor in [total];
    a mail request is made for each selected debtor with a non-empty
    address, and each request is counted once, in [sent] or by an error
    line. [failed] is the number of error lines plus the number of requests
    refused with a null JSON body, which are counted twice; so it is at
    least the number of error lines and at most twice that number. *)
Theorem weekly_job_accounts method key send st :
  String.eqb method "OPTIONS" = false ->
  String.eqb key EmptyString = false ->
  exists results mailed,
    handler method (Some key) None send st = (Json 200 true (inl results), mailed) /\
    total results = length (selected st) /\
    length mailed = length (List.filter has_address (selected st)) /\
    (length mailed <= total results)%nat /\
    (sent results + length (errors results) = length mailed)%nat /\
    (failed results
     = length (errors results)
       + length (List.filter (fun d => has_address d && null_body (send d.1))
                   (selected st)))%nat /\
    (length (errors results) <= failed results <= 2 * length (errors results))%nat.
Proof.
  intros Hm Hk. unfold handler. rewrite Hm, Hk.
  destruct (fold_left (remind send) (selected st)
              (mkResults (length (selected st)) 0 0 [], [])) as [results mailed] eqn:Hloop.
  exists results, mailed. split; [reflexivity|].
  apply remind_loop in Hloop as (Ht & Hc & Hl & Hf & He & _). simpl in *.
  pose proof (filter_length_le has_address (selected st)).
  repeat split; lia.
Qed.

(** X25. The job writes only to debtors that are pending, owe something and
    have an address: every address a mail request is made for is the email
    of a stored debtor with status pending and a positive balance. A debtor
    whose row says paid is never written to; and without a key, or when the
    debtors query fails, no mail request is made at all. *)
Theorem weekly_job_mails_pending_only method RESEND_API_KEY fetchError send st :
  let mailed := (handler method RESEND_API_KEY fetchError send st).2 in
  (forall e, In e mailed ->
     exists k row,
       debtors st !! k = Some row /\ customer_email row = Some e /\
       status row = "pending" /\ (0 < current_balance row)%Q) /\
  ((RESEND_API_KEY = None \/ fetchError <> None) -> mailed = []).
Proof.
  unfold handler.
  destruct (String.eqb method "OPTIONS"); [split; [intros e [] | reflexivity]|].
  destruct RESEND_API_KEY as [key|]; [|split; [intros e [] | reflexivity]].
  destruct (String.eqb key EmptyString); [split; [intros e [] | reflexivity]|].
  destruct fetchError as [message|]; [split; [intros e [] | reflexivity]|].
  destruct (fold_left (remind send) (selected st)
              (mkResults (length (selected st)) 0 0 [], [])) as [results mailed] eqn:Hloop.
  simpl. split; [|intros [H|H]; [discriminate | done]].
  intros e He. apply remind_loop in Hloop as (_ & _ & _ & _ & _ & Hin).
  destruct (Hin e He) as [[]|([k row] & Hd & Hemail)].
  unfold selected in Hd.
  apply list_elem_of_In, elem_of_map_to_list, map_lookup_filter_Some in Hd
    as [Hrow (Hs & Hb & _)].
  simpl in *. exists k, row. apply Qltb_true in Hb. auto.
Qed.

End WeeklyRemindersMore.

(** ** The change indicators *)

Section AnalyticsMore.
Import Analytics.

Lemma percent_times_previous current previous :
  ~ (previous == 0)%Q ->
  ((current - previous) / previous * 100 * previous == (current - previous) * 100)%Q.
Proof. intros H. field. assumption. Qed.

(** X26. The arrow of a change indicator follows the sign of the percentage,
    and the percentage divides by the previous value. For a positive
    previous value the arrow points up exactly when the value rose; for a
    negative previous value it points down when the value rose and up when
    it fell; from a previous value of zero it points up when the current
    value is positive and never down. The class of the printed report, in
    contrast, is trend-up exactly when the value rose. *)
Theorem trend_follows_sign_of_previous current previous :
  ((0 < previous)%Q ->
     (trend current previous = Up <-> (previous < current)%Q) /\
     (trend current previous = Down <-> (current < previous)%Q)) /\
  ((previous < 0)%Q ->
     (trend current previous = Up <-> (current < previous)%Q) /\
     (trend current previous = Down <-> (previous < current)%Q)) /\
  ((previous == 0)%Q ->
     (trend current previous = Up <-> (0 < current)%Q) /\
     trend current previous <> Down) /\
  (getChangeClass current previous = "trend-up" <-> (previous < current)%Q).
Proof.
  assert (Hsign : ~ (previous == 0)%Q ->
            trend current previous
            = if Qltb 0 ((current - previous) / previous * 100) then Up
              else if Qltb ((current - previous) / previous * 100) 0 then Down
              else NoChange).
  { intros Hnz. unfold trend, getChangePercent.
    destruct (Qeq_bool previous 0) eqn:E; [|reflexivity].
    apply Qeq_bool_iff in E. contradiction. }
  split; [|split; [|split]].
  - intros Hpos. rewrite Hsign by lra.
    pose proof (percent_times_previous current previous) as Hx.
    set (x := ((current - previous) / previous * 100)%Q) in *.
    assert (Hx' : (x * previous == (current - previous) * 100)%Q) by (apply Hx; lra).
    destruct (Qltb 0 x) eqn:E1; [|destruct (Qltb x 0) eqn:E2].
    + apply Qltb_true in E1. split; split; try discriminate; try reflexivity; intros; nra.
    + apply Qltb_false in E1. apply Qltb_true in E2.
      split; split; try discriminate; try reflexivity; intros; nra.
    + apply Qltb_false in E1, E2.
      split; split; try discriminate; intros; nra.
  - intros Hneg. rewrite Hsign by lra.
    pose proof (percent_times_previous current previous) as Hx.
    set (x := ((current - previous) / previous * 100)%Q) in *.
    assert (Hx' : (x * previous == (current - previous) * 100)%Q) by (apply Hx; lra).
    destruct (Qltb 0 x) eqn:E1; [|destruct (Qltb x 0) eqn:E2].
    + apply Qltb_true in E1. split; split; try discriminate; try reflexivity; intros; nra.
    + apply Qltb_false in E1. apply Qltb_true in E2.
      split; split; try discriminate; try reflexivity; intros; nra.
    + apply Qltb_false in E1, E2.
      split; split; try discriminate; intros; nra.
  - intros Hzero. unfold trend, getChangePercent.
    apply Qeq_bool_iff in Hzero. rewrite Hzero.
    destruct (Qltb 0 current) eqn:E.
    + apply Qltb_true in E. split; [|discriminate]. tauto.
    + apply Qltb_false in E. simpl. split; [|discriminate].
      split; [discriminate | lra].
  - unfold getChangeClass.
    destruct (Qltb 0 (current - previous)) eqn:E1.
    + apply Qltb_true in E1. split; [lra | reflexivity].
    + apply Qltb_false in E1.
      destruct (Qltb (current - previous) 0); split; try discriminate; lra.
Qed.

End AnalyticsMore.

(** ** Expenses per category *)

Section ExpensesMore.
Import Expenses.

(** What one turn of the reduce does to the entry of a category that is
    no member of [Object.prototype]. *)
Lemma add_expense_at inherited acc e key :
  key <> "__proto__" -> inherited key = false -> acc !! key <> Some Text ->
  if String.eqb (category e) key then
    exists v, add_expense inherited acc e !! key = Some (Amount v) /\
              (v == number_at acc key + amount e)%Q
  else add_expense inherited acc e !! key = acc !! key.
Proof.
  intros Hproto Hown Htext. unfold add_expense.
  destruct (String.eqb (category e) key) eqn:E.
  - apply String.eqb_eq in E. subst key.
    destruct (String.eqb (category e) "__proto__") eqn:P;
      [by apply String.eqb_eq in P|].
    unfold number_at.
    destruct (acc !! category e) as [[v|]|] eqn:L.
    + exists (v + amount e)%Q. rewrite lookup_insert_eq. split; [done | lra].
    + done.
    + rewrite Hown. exists (0 + amount e)%Q. rewrite lookup_insert_eq.
      split; [done | lra].
  - apply String.eqb_neq in E.
    destruct (String.eqb (category e) "__proto__"); [reflexivity|].
    destruct (acc !! category e) as [[v|]|];
      [| |destruct (inherited (category e))]; by rewrite lookup_insert_ne.
Qed.

Lemma by_category_from inherited (l : list ExpenseRow) (acc : gmap string Entry) key :
  key <> "__proto__" -> inherited key = false -> acc !! key <> Some Text ->
  let result := fold_left (add_expense inherited) l acc in
  result !! key <> Some Text /\
  (number_at result key == number_at acc key + Qsum (amounts_of key l))%Q /\
  (result !! key = None <-> acc !! key = None /\ amounts_of key l = []).
Proof.
  intros Hproto Hown. revert acc.
  induction l as [|e l IH]; intros acc Htext; simpl.
  - split; [assumption|]. split; [unfold amounts_of; simpl; lra | tauto].
  - pose proof (add_expense_at inherited acc e key Hproto Hown Htext) as Hstep.
    unfold amounts_of in *. simpl.
    destruct (String.eqb (category e) key) eqn:E.
    + destruct Hstep as (v & Hv & Hsum).
      destruct (IH (add_expense inherited acc e)) as (Ht & Hs & Hnone);
        [by rewrite Hv|].
      split; [assumption|]. split.
      * assert (Hn : number_at (add_expense inherited acc e) key = v)
          by (unfold number_at; by rewrite Hv).
        rewrite Hs, Hn. simpl. lra.
      * rewrite Hnone, Hv. simpl. split; intros [H H']; done.
    + destruct (IH (add_expense inherited acc e)) as (Ht & Hs & Hnone);
        [by rewrite Hstep|].
      split; [assumption|]. split.
      * assert (Hn : number_at (add_expense inherited acc e) key = number_at acc key)
          by (unfold number_at; by rewrite Hstep).
        rewrite Hs, Hn. reflexivity.
      * by rewrite Hnone, Hstep.
Qed.

(** The object never gets an own entry under __proto__. *)
Lemma no_proto_entry inherited (l : list ExpenseRow) (acc : gmap string Entry) :
  acc !! "__proto__" = None ->
  fold_left (add_expense inherited) l acc !! "__proto__" = None.
Proof.
  revert acc. induction l as [|e l IH]; intros acc Hacc; simpl; [assumption|].
  apply IH. unfold add_expense.
  destruct (String.eqb (category e) "__proto__") eqn:P; [assumption|].
  apply String.eqb_neq in P.
  destruct (acc !! category e) as [[v|]|];
    [| |destruct (inherited (category e))]; by rewrite lookup_insert_ne.
Qed.

(** Under the name of a member of [Object.prototype] the object holds a
    text or nothing. *)
Lemma inherited_entry inherited (l : list ExpenseRow) (acc : gmap string Entry) key :
  key <> "__proto__" -> inherited key = true ->
  (forall v, acc !! key <> Some (Amount v)) ->
  let result := fold_left (add_expense inherited) l acc in
  (forall v, result !! key <> Some (Amount v)) /\
  (result !! key = None <-> acc !! key = None /\ amounts_of key l = []).
Proof.
  intros Hproto Hinh. revert acc.
  induction l as [|e l IH]; intros acc Hacc; simpl.
  - split; [assumption|]. unfold amounts_of. simpl. tauto.
  - unfold amounts_of in *. simpl.
    destruct (String.eqb (category e) key) eqn:E.
    + apply String.eqb_eq in E.
      assert (Hstep : add_expense inherited acc e !! key = Some Text).
      { unfold add_expense. rewrite E.
        destruct (String.eqb key "__proto__") eqn:P;
          [by apply String.eqb_eq in P|].
        destruct (acc !! key) as [[v|]|] eqn:L.
        - by destruct (Hacc v).
        - apply lookup_insert_eq.
        - rewrite Hinh. apply lookup_insert_eq. }
      destruct (IH (add_expense inherited acc e)) as (Ha & Hnone);
        [by rewrite Hstep|].
      split; [assumption|]. rewrite Hnone, Hstep. simpl.
      split; intros [H H']; done.
    + apply String.eqb_neq in E.
      assert (Hstep : add_expense inherited acc e !! key = acc !! key).
      { unfold add_expense.
        destruct (String.eqb (category e) "__proto__"); [reflexivity|].
        destruct (acc !! category e) as [[v|]|];
          [| |destruct (inherited (category e))]; by rewrite lookup_insert_ne. }
      destruct (IH (add_expense inherited acc e)) as (Ha & Hnone);
        [by rewrite Hstep|].
      split; [assumption|]. by rewrite Hnone, Hstep.
Qed.

Lemma amounts_of_nil key expenses :
  amounts_of key expenses = [] <-> forall e, In e expenses -> category e <> key.
Proof.
  unfold amounts_of. split.
  - intros Hempty e Hin Hc.
    assert (Hin' : In e (List.filter (fun e => String.eqb (category e) key) expenses))
      by (apply filter_In; split; [assumption | by apply String.eqb_eq]).
    destruct (List.filter _ expenses); [destruct Hin' | discriminate].
  - intros Hno.
    destruct (List.filter (fun e => String.eqb (category e) key) expenses)
      as [|e l] eqn:Hf; [reflexivity|].
    assert (Hin : In e (List.filter (fun e => String.eqb (category e) key) expenses))
      by (rewrite Hf; by left).
    apply filter_In in Hin as [Hin Hc]. apply String.eqb_eq in Hc.
    by destruct (Hno e Hin).
Qed.

(** X27. The amounts per category of the expense page, which are collected
    in a plain object. For a category that is not the name of a member of
    [Object.prototype], the object has an entry exactly when some fetched
    expense is of that category, and the entry is the number that is the sum
    of the amounts of the expenses of that category. For the name of a
    member (constructor, toString and the like) the entry, which exists
    exactly when some expense is of that category, is never a number; and
    under __proto__ the object gets no entry at all. *)
Theorem expenses_by_category inherited (expenses : list ExpenseRow) key :
  key <> "__proto__" ->
  (inherited key = false ->
   match expensesByCategory inherited expenses !! key with
   | Some (Amount total) =>
       (total == Qsum (amounts_of key expenses))%Q /\
       exists e, In e expenses /\ category e = key
   | Some Text => False
   | None => forall e, In e expenses -> category e <> key
   end) /\
  (inherited key = true ->
   match expensesByCategory inherited expenses !! key with
   | Some (Amount total) => False
   | Some Text => exists e, In e expenses /\ category e = key
   | None => forall e, In e expenses -> category e <> key
   end) /\
  expensesByCategory inherited expenses !! "__proto__" = None.
Proof.
  intros Hproto.
  assert (Hsome : forall entry,
            (expensesByCategory inherited expenses !! key = None
             <-> (∅ : gmap string Entry) !! key = None
                 /\ amounts_of key expenses = []) ->
            expensesByCategory inherited expenses !! key = Some entry ->
            exists e, In e expenses /\ category e = key).
  { intros entry Hnone Hentry.
    destruct (amounts_of key expenses) as [|a l] eqn:Ha.
    - destruct Hnone as [_ Hnone].
      rewrite Hnone in Hentry by (split; [apply lookup_empty | reflexivity]).
      discriminate.
    - unfold amounts_of in Ha.
      destruct (List.filter (fun e => String.eqb (category e) key) expenses)
        as [|e l'] eqn:Hf; [discriminate|].
      assert (Hin : In e (List.filter (fun e => String.eqb (category e) key) expenses))
        by (rewrite Hf; by left).
      apply filter_In in Hin as [Hin Hc]. apply String.eqb_eq in Hc. eauto. }
  split; [|split].
  - intros Hown.
    destruct (by_category_from inherited expenses ∅ key Hproto Hown)
      as (Htext & Hsum & Hnone); [by rewrite lookup_empty|].
    fold (expensesByCategory inherited expenses) in Htext, Hsum, Hnone.
    unfold number_at in Hsum. rewrite lookup_empty in Hsum.
    destruct (expensesByCategory inherited expenses !! key) as [[total|]|] eqn:E.
    + split; [rewrite Hsum; lra | by apply (Hsome (Amount total))].
    + done.
    + apply amounts_of_nil. by apply Hnone.
  - intros Hinh.
    destruct (inherited_entry inherited expenses ∅ key Hproto Hinh)
      as (Hnumber & Hnone); [intros v; by rewrite lookup_empty|].
    fold (expensesByCategory inherited expenses) in Hnumber, Hnone.
    destruct (expensesByCategory inherited expenses !! key) as [[total|]|] eqn:E.
    + by destruct (Hnumber total).
    + by apply (Hsome Text).
    + apply amounts_of_nil. by apply Hnone.
  - apply no_proto_entry, lookup_empty.
Qed.

End ExpensesMore.

(** ** Adding a product twice *)

Section Duplicates.
Import Db.

Variable ilike : string -> string -> bool.

(** X28. Adding to the stock a product that is already there makes a second
    row, and from then on sales of that product are not checked against the
    stock: once the stock form has added a row whose name the sale's product
    name matches, beside an older row of the user that it matches too, the
    sale is recorded for any quantity the form accepts and no stock row
    changes. *)
Theorem second_stock_row_disables_check
    userId stock_fd new_id k r sale_fd q c p select_ok update_ok insert_ok st :
  stock st !! k = Some r -> stock_user_id r = userId ->
  ilike (trim (SalesPage.f_product_name sale_fd)) (stock_product_name r) = true ->
  ilike (trim (SalesPage.f_product_name sale_fd))
        (trim (StockManagement.f_product_name stock_fd)) = true ->
  (StockManagement.handleSubmit userId stock_fd (Inserted new_id) st).1
    = Done "Stock added successfully!" ->
  SalesPage.saleSchema sale_fd = Some (q, c, p) ->
  let added := (StockManagement.handleSubmit userId stock_fd (Inserted new_id) st).2 in
  let result :=
    SalesPage.handleSubmit ilike userId sale_fd select_ok update_ok insert_ok added in
  stock result.2 = stock added /\
  (insert_ok = true ->
     exists sale,
       result = (Done "Sale recorded successfully!",
                 set_sales (sales added ++ [sale]) added) /\
       sale_quantity sale = q).
Proof.
  intros Hk Hu Hm Hm' Hadd Hs added.
  assert (Hadded : exists quantity costPrice,
            new_id <> k /\
            stock added
            = <[new_id := mkStock userId (trim (StockManagement.f_product_name stock_fd))
                            quantity costPrice 0]> (stock st)).
  { subst added. unfold StockManagement.handleSubmit in *.
    destruct (StockManagement.stockSchema stock_fd) as [[quantity costPrice]|];
      [|discriminate].
    unfold insert_row in *. destruct (stock st !! new_id) eqn:Hnew; [discriminate|].
    simpl. exists quantity, costPrice. split; [congruence | reflexivity]. }
  destruct Hadded as (quantity & costPrice & Hne & Hstock).
  apply (handleSubmit_without_single_row ilike userId sale_fd q c p
           select_ok update_ok insert_ok added Hs).
  right.
  exists new_id, k,
    (mkStock userId (trim (StockManagement.f_product_name stock_fd))
             quantity costPrice 0), r.
  rewrite Hstock.
  split; [assumption|]. split; [apply lookup_insert_eq|].
  split; [by rewrite lookup_insert_ne|]. simpl. auto.
Qed.

End Duplicates.

Section MoreWitnesses.
Import Db.

Lemma second_stock_row_disables_check_witness :
  let added := (StockManagement.handleSubmit 1
                  (StockManagement.mkFormData " rice " (Some 8%Z) (Some (10 # 1)))
                  (Inserted 4) Examples.shop).2 in
  let result := SalesPage.handleSubmit Examples.same_letters 1
                  (Examples.sale_of "Rice" 100) true true true added in
  stock result.2 = stock added /\
  (true = true ->
     exists sale,
       result = (Done "Sale recorded successfully!",
                 set_sales (sales added ++ [sale]) added) /\
       sale_quantity sale = 100%Z).
Proof.
  apply (second_stock_row_disables_check Examples.same_letters 1
           (StockManagement.mkFormData " rice " (Some 8%Z) (Some (10 # 1)))
           4%nat 3%nat (mkStock 1 "Rice" 5 (10 # 1) 2)
           (Examples.sale_of "Rice" 100) 100%Z (10 # 1) (15 # 1)
           true true true Examples.shop);
    vm_compute; reflexivity.
Defined.

Lemma stats_count_pending_only_witness :
  let listed :=
    [(mkDebtor 1 "Ada Obi" "08012345678" None (1000 # 1) (400 # 1) (600 # 1) "pending",
      11%nat);
     (mkDebtor 1 "Eze" "08087654321" None (500 # 1) (500 # 1) 0 "paid", 10%nat)] in
  let stats := Views.calculateStats 11 listed in
  (Views.totalOutstanding stats
   == Qsum (map (fun d => current_balance d.1)
              (List.filter (fun d => String.eqb (status d.1) "pending") listed)))%Q /\
  Views.activeDebtors stats
  = length (List.filter (fun d => Qltb 0 (current_balance d.1)) listed).
Proof.
  apply (stats_count_pending_only 11
           [(mkDebtor 1 "Ada Obi" "08012345678" None (1000 # 1) (400 # 1) (600 # 1)
               "pending", 11%nat);
            (mkDebtor 1 "Eze" "08087654321" None (500 # 1) (500 # 1) 0 "paid", 10%nat)]).
  repeat constructor; vm_compute; discriminate.
Defined.

Lemma weekly_job_accounts_witness :
  length (WeeklyReminders.selected Samples.two_debtors) = 2%nat /\
  exists results mailed,
    WeeklyReminders.handler "POST" (Some "re_key") None
      Samples.refusing Samples.two_debtors
      = (WeeklyReminders.Json 200 true (inl results), mailed) /\
    WeeklyReminders.total results
    = length (WeeklyReminders.selected Samples.two_debtors) /\
    length mailed
    = length (List.filter WeeklyReminders.has_address
                (WeeklyReminders.selected Samples.two_debtors)) /\
    (length mailed <= WeeklyReminders.total results)%nat /\
    (WeeklyReminders.sent results + length (WeeklyReminders.errors results)
     = length mailed)%nat /\
    (WeeklyReminders.failed results
     = length (WeeklyReminders.errors results)
       + length (List.filter
                   (fun d => WeeklyReminders.has_address d
                             && WeeklyReminders.null_body (Samples.refusing d.1))
                   (WeeklyReminders.selected Samples.two_debtors)))%nat /\
    (length (WeeklyReminders.errors results) <= WeeklyReminders.failed results
     <= 2 * length (WeeklyReminders.errors results))%nat.
Proof.
  split; [vm_compute; reflexivity|].
  apply (weekly_job_accounts "POST" "re_key" Samples.refusing Samples.two_debtors);
    reflexivity.
Defined.

(** The sample run: two mails refused, the first debtor's with a null
    body; two error lines and three failures. *)
Lemma weekly_job_sample_run :
  WeeklyReminders.handler "POST" (Some "re_key") None
    Samples.refusing Samples.two_debtors
  = (WeeklyReminders.Json 200 true
       (inl (WeeklyReminders.mkResults 2 0 3
               ["eze@example.com: quota exceeded";
                "ada@example.com: Cannot read properties of null"])),
     ["eze@example.com"; "ada@example.com"]).
Proof. vm_compute. reflexivity. Qed.

Lemma expenses_by_category_witness :
  let expenses :=
    [Expenses.mkExpense "2025-12-01" "Food" "rice" (10 # 1);
     Expenses.mkExpense "2025-12-02" "constructor" "builder" (5 # 1);
     Expenses.mkExpense "2025-12-03" "Food" "beans" (5 # 2)] in
  "Food" <> "__proto__" /\
  Samples.is_inherited "Food" = false /\
  ((Samples.is_inherited "Food" = false ->
    match Expenses.expensesByCategory Samples.is_inherited expenses !! "Food" with
    | Some (Expenses.Amount total) =>
        (total == Qsum (Expenses.amounts_of "Food" expenses))%Q /\
        exists e, In e expenses /\ Expenses.category e = "Food"
    | Some Expenses.Text => False
    | None => forall e, In e expenses -> Expenses.category e <> "Food"
    end) /\
   (Samples.is_inherited "Food" = true ->
    match Expenses.expensesByCategory Samples.is_inherited expenses !! "Food" with
    | Some (Expenses.Amount total) => False
    | Some Expenses.Text => exists e, In e expenses /\ Expenses.category e = "Food"
    | None => forall e, In e expenses -> Expenses.category e <> "Food"
    end) /\
   Expenses.expensesByCategory Samples.is_inherited expenses !! "__proto__" = None).
Proof.
  split; [discriminate|]. split; [reflexivity|].
  apply (expenses_by_category Samples.is_inherited
           [Expenses.mkExpense "2025-12-01" "Food" "rice" (10 # 1);
            Expenses.mkExpense "2025-12-02" "constructor" "builder" (5 # 1);
            Expenses.mkExpense "2025-12-03" "Food" "beans" (5 # 2)] "Food").
  discriminate.
Defined.

End MoreWitnesses.
